(** * Faculty R&D dashboard: ingestion, normalization, filtering, metrics

    A shallow embedding of [src/app.py] ([load_and_clean_data] and the part
    of [main] up to the charts) and the properties the specification states
    about it.

    Conventions of the embedding
    - a pandas cell is a [value]: the NaN marker, a float (IEEE binary64,
      Rocq's primitive floats) or a Python string;
    - a Python [str] is a list of Unicode code points ([pystr]); column
      labels, file names and message texts are only compared or pasted
      together, so they are kept as [string];
    - a [DataFrame] is its list of labels and its rows, a row being a finite
      map from label to cell; an absent entry reads as NaN, as pandas'
      reindexing makes it;
    - the file system is an oracle [filesystem]: which paths exist and what
      each pandas reader does on them (a frame, or the exception raised);
    - Streamlit calls and reader calls are logged as [event]s in a trace;
      Python exceptions are the [Raises] outcome, [st.stop()] is [Stops]. *)

From Stdlib Require Import PrimFloat Uint63.
From stdpp Require Import gmap strings list.


(* ------------------------------------------------------------------ *)
(** ** Python strings *)

Definition pystr := list N.

(** A string literal of the source, as a Python string (ASCII text). *)
Definition py (s : string) : pystr :=
  map Ascii.N_of_ascii (String.list_ascii_of_string s).

Module Str.

(** [str.isspace] on one code point: the code points Python treats as
    white space ([str.strip()] with no argument removes exactly these). *)
Definition whitespace : list N :=
  [9; 10; 11; 12; 13; 28; 29; 30; 31; 32; 133; 160; 5760;
   8192; 8193; 8194; 8195; 8196; 8197; 8198; 8199; 8200; 8201; 8202;
   8232; 8233; 8239; 8287; 12288]%N.

Definition isspace (c : N) : bool := bool_decide (c ∈ whitespace).

Fixpoint lstrip (s : pystr) : pystr :=
  match s with
  | c :: t => if isspace c then lstrip t else s
  | [] => []
  end.

Definition rstrip (s : pystr) : pystr := reverse (lstrip (reverse s)).

(** [s.strip()] *)
Definition strip (s : pystr) : pystr := rstrip (lstrip s).

(** Lower-case and title-case mapping of one code point (Unicode full case
    mapping: the image is a sequence).  The tables are Python's on ASCII
    and on U+0149 and U+02BC; every other code point is left as it is
    here, so statements about case below are made for ASCII text and for
    these two code points only. *)
Definition lower_cp (c : N) : list N :=
  if ((65 <=? c) && (c <=? 90))%N then [c + 32]%N else [c].

Definition title_cp (c : N) : list N :=
  if ((97 <=? c) && (c <=? 122))%N then [c - 32]%N
  else if (c =? 329)%N then [700; 78]%N
  else [c].

(** [s.lower()] *)
Definition lower (s : pystr) : pystr := flat_map lower_cp s.

(** [s.capitalize()]: first character title-cased, the rest lower-cased. *)
Definition capitalize (s : pystr) : pystr :=
  match s with
  | [] => []
  | c :: t => title_cp c ++ lower t
  end.

Definition is_ascii (s : pystr) : bool := forallb (λ c, c <? 128)%N s.

End Str.

(* ------------------------------------------------------------------ *)
(** ** Cells, series and frames *)

Inductive value :=
| VNull                (* NaN, the missing-value marker *)
| VNum (x : float)
| VStr (s : pystr).

Definition Series := list value.

Abbreviation Row := (gmap string value).

Record DataFrame := {
  columns : list string;
  rows : list Row
}.

(** [pd.DataFrame()] *)
Definition empty_frame : DataFrame := {| columns := []; rows := [] |}.

(** [df.empty]: some axis has length 0. *)
Definition is_empty (df : DataFrame) : bool :=
  bool_decide (columns df = []) || bool_decide (rows df = []).

(** [len(df)] *)
Definition nrows (df : DataFrame) : nat := length (rows df).

(** The cell of a row under a label. *)
Definition cell (c : string) (r : Row) : value := default VNull (r !! c).

(** The text conversions pandas does on cells: [to_float s] is the float
    that [pd.to_numeric] reads from the text [s] ([None] when it rejects
    it) and [float_str x] is [str(x)], used by [astype(str)]. *)
Class CellText := {
  to_float : pystr → option float;
  float_str : float → pystr
}.

Module Ser.
Section ops.
Context `{CellText}.

(** [pd.isna] of a cell. *)
Definition isna (v : value) : bool :=
match v with
| VNull => true
| VNum x => PrimFloat.is_nan x
| VStr _ => false
end.

(** One cell of [pd.to_numeric(s, errors='coerce')]: what does not parse
  becomes NaN. *)
Definition to_numeric_cell (v : value) : value :=
match v with
| VNull => VNull
| VNum x => VNum x
| VStr s => match to_float s with Some x => VNum x | None => VNull end
end.

Definition to_numeric_coerce (s : Series) : Series := map to_numeric_cell s.

(** One cell of [s.fillna(d)]. *)
Definition fill_cell (d : value) (v : value) : value :=
if isna v then d else v.

Definition fillna (d : value) (s : Series) : Series := map (fill_cell d) s.

(** One cell of [s.astype(str)] on a column of Python objects: a text is
    kept, a number is printed, NaN prints as [nan]. *)
Definition str_of_cell (v : value) : pystr :=
match v with
| VNull => py "nan"
| VNum x => if PrimFloat.is_nan x then py "nan" else float_str x
| VStr s => s
end.

Definition astype_str (s : Series) : Series := map (λ v, VStr (str_of_cell v)) s.

(** The [.str] accessor: a string method applied to a string cell; any
  other cell gives NaN. *)
Definition str_cell (f : pystr → pystr) (v : value) : value :=
match v with
| VStr t => VStr (f t)
| _ => VNull
end.

Definition str_strip (s : Series) : Series := map (str_cell Str.strip) s.
Definition str_lower (s : Series) : Series := map (str_cell Str.lower) s.
Definition str_capitalize (s : Series) : Series := map (str_cell Str.capitalize) s.

(** [s == text], element by element. *)
Definition eq_text (t : pystr) (s : Series) : list bool :=
map (λ v, match v with VStr u => bool_decide (u = t) | _ => false end) s.

End ops.
End Ser.

Module Frame.

(** [df[c]] once the label is known to be there: the cells of the column. *)
Definition column (c : string) (df : DataFrame) : Series :=
  map (cell c) (rows df).

(** [df[c] = s], with one cell of [s] per row: an existing column is
    overwritten, a new label is added last. *)
Definition set_column (c : string) (s : Series) (df : DataFrame) : DataFrame :=
  {| columns := if bool_decide (c ∈ columns df) then columns df
                else columns df ++ [c];
     rows := zip_with (λ r v, <[c := v]> r) (rows df) s |}.

(** [df[c] = v] for a scalar [v]: broadcast to every row. *)
Definition set_scalar (c : string) (v : value) (df : DataFrame) : DataFrame :=
  set_column c (replicate (nrows df) v) df.

(** [df[mask]] for a boolean series [mask]: the rows marked [True]. *)
Fixpoint keep (rs : list Row) (mask : list bool) : list Row :=
  match rs, mask with
  | r :: rs', b :: mask' => if b then r :: keep rs' mask' else keep rs' mask'
  | _, _ => []
  end.

Definition select (mask : list bool) (df : DataFrame) : DataFrame :=
  {| columns := columns df; rows := keep (rows df) mask |}.

(** [df.rename(columns=mapper)]: a label that is a key of [mapper] is
    replaced by its image; the cells stay.  (A frame carrying both an old
    label and its new one would get two columns of one label in pandas;
    rows are maps here, so such a frame is outside this model.) *)
Fixpoint rename_label (mapper : list (string * string)) (c : string) : string :=
  match mapper with
  | [] => c
  | (old, new) :: rest => if bool_decide (c = old) then new else rename_label rest c
  end.

Definition move_key (old new : string) (r : Row) : Row :=
  match r !! old with
  | Some v => <[new := v]> (delete old r)
  | None => r
  end.

Definition rename_row (mapper : list (string * string)) (r : Row) : Row :=
  foldl (λ acc p, move_key p.1 p.2 acc) r mapper.

Definition rename (mapper : list (string * string)) (df : DataFrame) : DataFrame :=
  {| columns := map (rename_label mapper) (columns df);
     rows := map (rename_row mapper) (rows df) |}.

(** The labels of [pd.concat]: the union, in order of first appearance. *)
Definition add_label (acc : list string) (c : string) : list string :=
  if bool_decide (c ∈ acc) then acc else acc ++ [c].

Definition union_labels (dfs : list DataFrame) : list string :=
  foldl add_label [] (flat_map columns dfs).

(** A row laid out on the labels [cols]; a label it lacks reads NaN. *)
Definition reindex (cols : list string) (r : Row) : Row :=
  foldr (λ c acc, <[c := cell c r]> acc) ∅ cols.

(** [pd.concat(dfs, ignore_index=True)]: the rows of the frames in order,
    each on the union of the labels. *)
Definition concat (dfs : list DataFrame) : DataFrame :=
  let cols := union_labels dfs in
  {| columns := cols;
     rows := flat_map (λ d, map (reindex cols) (rows d)) dfs |}.

End Frame.

(* ------------------------------------------------------------------ *)
(** ** Effects: exceptions, the trace, the file system *)

Inductive exn :=
| UnicodeDecodeError (msg : string)
| KeyError (key : string)
| OtherError (msg : string).     (* any other subclass of [Exception] *)

(** [str(e)], as pasted into the messages. *)
Definition exn_text (e : exn) : string :=
  match e with
  | UnicodeDecodeError m => m
  | KeyError k => "'" +:+ k +:+ "'"
  | OtherError m => m
  end.

Inductive encoding := DefaultEncoding | Latin1.

Inductive metric_value := MFloat (x : float) | MCount (n : nat).

Inductive event :=
| ReadExcel (path : string)                  (* pd.read_excel(path) *)
| ReadCsv (path : string) (enc : encoding)   (* pd.read_csv(path[, encoding]) *)
| Toast (msg : string)                       (* st.toast *)
| Warning (msg : string)                     (* st.warning *)
| Error (msg : string)                       (* st.error *)
| Title (msg : string)
| Markdown (msg : string)
| SidebarHeader (msg : string)
| Selectbox (label : string)
| Metric (label : string) (v : metric_value)
| Divider
| Subheader (msg : string)
| PlotlyChart (title : string).              (* st.plotly_chart of the figure so titled *)

Inductive outcome (A : Type) :=
| Returns (a : A)
| Raises (e : exn)
| Stops.                                     (* st.stop() *)
Arguments Returns {A} a.
Arguments Raises {A} e.
Arguments Stops {A}.

(** A computation: how it ends, and the trace it leaves. *)
Definition M (A : Type) : Type := outcome A * list event.

#[global] Instance M_ret : MRet M := λ A a, (Returns a, []).

#[global] Instance M_bind : MBind M := λ A B f m,
  match m.1 with
  | Returns a => ((f a).1, m.2 ++ (f a).2)
  | Raises e => (Raises e, m.2)
  | Stops => (Stops, m.2)
  end.

Definition emit (e : event) : M unit := (Returns (), [e]).
Definition raise {A} (e : exn) : M A := (Raises e, []).
Definition stop {A} : M A := (Stops, []).

(** [try: m  except Exception as e: handler e] *)
Definition try_except {A} (m : M A) (handler : exn → M A) : M A :=
  match m.1 with
  | Raises e => ((handler e).1, m.2 ++ (handler e).2)
  | _ => m
  end.

(** What is on disk: which paths exist, and what each reader does on a
    path (the frame it returns or the exception it raises). *)
Record filesystem := {
  path_exists : string → bool;
  excel_content : string → exn + DataFrame;
  csv_content : string → encoding → exn + DataFrame
}.

Definition of_read (r : exn + DataFrame) : M DataFrame :=
  match r with
  | inl e => raise e
  | inr d => mret d
  end.

Definition read_excel (fs : filesystem) (path : string) : M DataFrame :=
  emit (ReadExcel path) ;; of_read (excel_content fs path).

Definition read_csv (fs : filesystem) (path : string) (enc : encoding) : M DataFrame :=
  emit (ReadCsv path enc) ;; of_read (csv_content fs path enc).

(** [df[c]] as an expression: [KeyError] when the label is absent. *)
Definition getitem (c : string) (df : DataFrame) : M Series :=
  if bool_decide (c ∈ columns df) then mret (Frame.column c df)
  else raise (KeyError c).

(* ------------------------------------------------------------------ *)
(** ** The program *)

Section program.
Context `{CellText}.

Definition files_to_check : list (string * string * string) :=
  [("CSE", "CSEDATA.xlsx", "CSEDATA.xlsx - Sheet1.csv");
   ("ECE", "ECEDATA.xlsx", "ECEDATA.xlsx - Sheet1.csv")].

(** The [columns=] mapper of the [rename] call. *)
Definition aliases : list (string * string) :=
  [("Funding agency", "Funding Agency");
   ("Co-Investigator", "Co-investigator")].

(** Lines 42-47: stamp the batch with its department, fold the aliases. *)
Definition tag_batch (dept : string) (df : DataFrame) : DataFrame :=
  Frame.rename aliases (Frame.set_scalar "Department" (VStr (py dept)) df).

(** Lines 22-26: the spreadsheet attempt. *)
Definition try_excel (fs : filesystem) (xlsx_name : string) : M (option DataFrame) :=
  if path_exists fs xlsx_name then
    try_except (d ← read_excel fs xlsx_name; mret (Some d))
               (λ _, mret None)
  else mret None.

(** Lines 28-39: the CSV attempt, made when the spreadsheet gave nothing. *)
Definition try_csv (fs : filesystem) (dept csv_name : string)
    (df : option DataFrame) : M (option DataFrame) :=
  match df with
  | Some _ => mret df
  | None =>
    if path_exists fs csv_name then
      try_except (d ← read_csv fs csv_name DefaultEncoding; mret (Some d))
        (λ e,
           match e with
           | UnicodeDecodeError _ =>
             try_except
               (d ← read_csv fs csv_name Latin1;
                emit (Toast ("Loaded " +:+ dept +:+
                  " data using 'latin1' encoding to resolve character errors.")) ;;
                mret (Some d))
               (λ e, emit (Warning ("Found " +:+ csv_name +:+
                       " but couldn't read it with any encoding: " +:+ exn_text e)) ;;
                     mret None)
           | _ =>
             emit (Warning ("Found " +:+ csv_name +:+
               " but couldn't read it: " +:+ exn_text e)) ;;
             mret None
           end)
    else mret None
  end.

(** Lines 20-50: the body of the loop, on the list [dfs] built so far. *)
Definition load_source (fs : filesystem) (src : string * string * string)
    (dfs : list DataFrame) : M (list DataFrame) :=
  let '(dept, xlsx_name, csv_name) := src in
  df ← try_excel fs xlsx_name;
  df ← try_csv fs dept csv_name df;
  match df with
  | Some d => mret (dfs ++ [tag_batch dept d])
  | None =>
    emit (Error ("⚠️ Could not find readable data for " +:+ dept +:+
      ". Ensure '" +:+ xlsx_name +:+ "' or '" +:+ csv_name +:+
      "' is in the project folder.")) ;;
    mret dfs
  end.

(** Lines 18-50: the loop. *)
Fixpoint load_sources (fs : filesystem) (srcs : list (string * string * string))
    (dfs : list DataFrame) : M (list DataFrame) :=
  match srcs with
  | [] => mret dfs
  | src :: rest => dfs ← load_source fs src dfs; load_sources fs rest dfs
  end.

(** Lines 61-66: the status pipeline on a series. *)
Definition status_series (s : Series) : Series :=
  Ser.str_capitalize (Ser.str_lower (Ser.str_strip (Ser.astype_str s))).

(** [df[c] = df[c].fillna(d)] under [if c in df.columns]. *)
Definition fill_if_present (c : string) (d : value) (df : DataFrame) : M DataFrame :=
  if bool_decide (c ∈ columns df) then
    s ← getitem c df; mret (Frame.set_column c (Ser.fillna d s) df)
  else mret df.

(** Lines 57-74: coercion, status casing, null filling. *)
Definition clean (df : DataFrame) : M DataFrame :=
  amount ← getitem "Amount(in lakhs)" df;
  let df := Frame.set_column "Amount(in lakhs)"
              (Ser.fillna (VNum 0) (Ser.to_numeric_coerce amount)) df in
  df ← (if bool_decide ("Status" ∈ columns df) then
          s ← getitem "Status" df;
          mret (Frame.set_column "Status" (status_series s) df)
        else mret df);
  df ← fill_if_present "Co-investigator" (VStr (py "None")) df;
  df ← fill_if_present "Domain" (VStr (py "Unspecified")) df;
  df ← fill_if_present "Faculty Name" (VStr (py "Unknown")) df;
  mret df.

(** [load_and_clean_data()] (the [st.cache_data] decorator only saves
    re-computation across reruns of the script). *)
Definition load_and_clean_data (fs : filesystem) : M DataFrame :=
  dfs ← load_sources fs files_to_check [];
  if bool_decide (dfs = []) then mret empty_frame
  else clean (Frame.concat dfs).

(** Lines 100-104 of [main]: the two equality filters. *)
Definition filter_rows (df : DataFrame) (selected_dept selected_status : pystr)
    : M DataFrame :=
  let df_filtered := df in
  df_filtered ← (if bool_decide (selected_dept ≠ py "All") then
                   d ← getitem "Department" df_filtered;
                   mret (Frame.select (Ser.eq_text selected_dept d) df_filtered)
                 else mret df_filtered);
  df_filtered ← (if bool_decide (selected_status ≠ py "All")
                    && bool_decide ("Status" ∈ columns df_filtered) then
                   s ← getitem "Status" df_filtered;
                   mret (Frame.select (Ser.eq_text selected_status s) df_filtered)
                 else mret df_filtered);
  mret df_filtered.

(** [s.sum()]: the non-missing numbers, added from [0]. *)
Definition series_sum (s : Series) : float :=
  foldl (λ acc v, match v with
                  | VNum x => if PrimFloat.is_nan x then acc else (acc + x)%float
                  | _ => acc
                  end) 0%float s.

Definition value_eqb (a b : value) : bool :=
  match a, b with
  | VNull, VNull => true
  | VNum x, VNum y => PrimFloat.eqb x y
  | VStr s, VStr t => bool_decide (s = t)
  | _, _ => false
  end.

Fixpoint distinct (s : Series) : Series :=
  match s with
  | [] => []
  | v :: t => v :: List.filter (λ w, negb (value_eqb v w)) (distinct t)
  end.

(** [s.nunique()]: the number of distinct non-missing values. *)
Definition nunique (s : Series) : nat :=
  length (distinct (List.filter (λ v, negb (Ser.isna v)) s)).

(** A Python [int] used as a float operand. *)
Definition float_of_nat (n : nat) : float :=
  PrimFloat.of_uint63 (Uint63.of_Z (Z.of_nat n)).

Record summary := {
  total_funding : float;
  total_projects : nat;
  unique_faculty : nat;
  avg_funding : float
}.

(** Lines 109-112 of [main]. *)
Definition summarize (df df_filtered : DataFrame) : M summary :=
  amount ← getitem "Amount(in lakhs)" df_filtered;
  let total_funding := series_sum amount in
  let total_projects := nrows df_filtered in
  unique_faculty ← (if bool_decide ("Faculty Name" ∈ columns df) then
                      s ← getitem "Faculty Name" df_filtered; mret (nunique s)
                    else mret 0);
  let avg_funding :=
    if bool_decide (0 < total_projects)%nat
    then (total_funding / float_of_nat total_projects)%float
    else 0%float in
  mret {| total_funding := total_funding; total_projects := total_projects;
          unique_faculty := unique_faculty; avg_funding := avg_funding |}.

(** A chart drawn when its column is there (lines 123-190). *)
Definition chart_if (c heading title : string) (df_filtered : DataFrame) : M unit :=
  emit (Subheader heading) ;;
  if bool_decide (c ∈ columns df_filtered) then emit (PlotlyChart title)
  else mret ().

(** [main()], lines 79-190: the two select boxes answer [dept_choice]
    and [status_choice]; the figures themselves and the search table
    that follows (lines 193-215) are the presentation layer and are not
    embedded. *)
Definition main (fs : filesystem) (dept_choice status_choice : pystr) : M unit :=
  emit (Title "🎓 Faculty Research & Development Dashboard") ;;
  emit (Markdown "Visualizing research grants, domains, and progress across departments.") ;;
  df ← load_and_clean_data fs;
  (if is_empty df then
     emit (Warning "Dashboard failed to load data. Please check your data files and names.") ;;
     stop
   else mret ()) ;;
  emit (SidebarHeader "Filter Options") ;;
  emit (Selectbox "Select Department") ;;
  let selected_dept := dept_choice in
  selected_status ← (if bool_decide ("Status" ∈ columns df) then
                       emit (Selectbox "Project Status") ;; mret status_choice
                     else mret (py "All"));
  df_filtered ← filter_rows df selected_dept selected_status;
  m ← summarize df df_filtered;
  emit (Metric "Total Funding (Lakhs)" (MFloat (total_funding m))) ;;
  emit (Metric "Total Projects" (MCount (total_projects m))) ;;
  emit (Metric "Active Researchers" (MCount (unique_faculty m))) ;;
  emit (Metric "Average Funding(in lakhs)" (MFloat (avg_funding m))) ;;
  emit Divider ;;
  chart_if "Domain" "Funding Distribution by Domain"
           "Total Funding by Research Domain" df_filtered ;;
  chart_if "Status" "Project Status Breakdown"
           "Percentage of Completed vs Ongoing Projects" df_filtered ;;
  chart_if "Faculty Name" "Top 10 Faculties by Grant Amount"
           "Top Fund Receivers" df_filtered ;;
  chart_if "Funding Agency" "Funding Agencies Contribution"
           "Funding Agency Hierarchy" df_filtered.

End program.

(* ------------------------------------------------------------------ *)
(** ** The select boxes and the detail table of [main]

    The lists offered by the two select boxes (lines 91 and 95) and the
    search table (lines 193-215).  The text typed in the search box is an
    argument, and the frame handed to [st.dataframe] is the result. *)

From Stdlib Require Import Sorted.

Module Text.

(** Python's order on [str]: lexicographic on the code points. *)
Fixpoint ltb (s t : pystr) : bool :=
  match s, t with
  | _, [] => false
  | [], _ :: _ => true
  | a :: s', b :: t' =>
    if (a <? b)%N then true
    else if (b <? a)%N then false
    else ltb s' t'
  end.

Fixpoint insert (x : pystr) (l : list pystr) : list pystr :=
  match l with
  | [] => [x]
  | y :: l' => if ltb x y then x :: y :: l' else y :: insert x l'
  end.

(** [sorted(l)] for a list of [str]: the order is total, so any sorting
    method gives this list. *)
Definition sorted (l : list pystr) : list pystr :=
  foldl (λ acc x, insert x acc) [] l.

(** [s.unique().tolist()] for a column of texts: the distinct texts, in
    order of first appearance. *)
Fixpoint unique (l : list pystr) : list pystr :=
  match l with
  | [] => []
  | x :: t => x :: List.filter (λ y, negb (bool_decide (y = x))) (unique t)
  end.

End Text.

(** Lines 91 and 95: [['All'] + sorted(df[c].unique().tolist())], the
    column being given by the list of its texts (the cells of [Department]
    and [Status] are texts in a data set, and Python orders texts with
    texts only). *)
Definition select_options (texts : list pystr) : list pystr :=
  py "All" :: Text.sorted (Text.unique texts).

(** The pattern search of [str.contains(pat, case=False)]: compiling the
    pattern with [re.IGNORECASE] raises on an ill-formed pattern, or gives
    the test "the pattern is found somewhere in the text". *)
Class TextSearch := {
  compile_ignorecase : pystr → exn + (pystr → bool)
}.

Section detail_table.
Context `{CellText} `{TextSearch}.

(** [s.str.contains(pat, case=False, na=False)] *)
Definition str_contains (pat : pystr) (s : Series) : M (list bool) :=
  match compile_ignorecase pat with
  | inl e => raise e
  | inr found =>
    mret (map (λ v, match v with VStr t => found t | _ => false end) s)
  end.

(** [df[cols]] for a list of labels: [KeyError] when one is absent (named
    here by the first absent label). *)
Definition getitem_list (cols : list string) (df : DataFrame) : M DataFrame :=
  match List.filter (λ c, negb (bool_decide (c ∈ columns df))) cols with
  | [] => mret {| columns := cols; rows := map (Frame.reindex cols) (rows df) |}
  | c :: _ => raise (KeyError c)
  end.

(** Lines 193-215 of [main]. *)
Definition detail_table (df_filtered : DataFrame) (search_term : pystr)
    : M DataFrame :=
  emit Divider ;;
  emit (Subheader " Detailed Project Data") ;;
  emit (Markdown "Use the table below to search for specific project titles or investigators.") ;;
  df_display ← (if bool_decide (search_term ≠ []) then
                  title ← getitem "Title" df_filtered;
                  mask ← str_contains search_term (Ser.astype_str title);
                  mask ← (if bool_decide ("Faculty Name" ∈ columns df_filtered) then
                            faculty ← getitem "Faculty Name" df_filtered;
                            by_faculty ← str_contains search_term (Ser.astype_str faculty);
                            mret (zip_with orb mask by_faculty)
                          else mret mask);
                  mret (Frame.select mask df_filtered)
                else mret df_filtered);
  let cols_to_show := ["Department"; "Faculty Name"; "Title"; "Amount(in lakhs)";
                       "Funding Agency"; "Status"; "Domain"] in
  let cols_to_show :=
    List.filter (λ c, bool_decide (c ∈ columns df_display)) cols_to_show in
  getitem_list cols_to_show df_display.

End detail_table.

(* ------------------------------------------------------------------ *)
(** ** The program read row by row

    The definitions of this part are not taken from the source: they say,
    cell by cell and source by source, what the program above computes, and
    the lemmas of the next part prove that they do. *)

Section reading.
Context `{CellText}.

(** [df[c] = f(df[c])] seen from one row. *)
Definition upd (c : string) (f : value → value) (r : Row) : Row :=
  <[c := f (cell c r)]> r.

Definition upd_if (cols : list string) (c : string) (f : value → value)
    (r : Row) : Row :=
  if bool_decide (c ∈ cols) then upd c f r else r.

(** Line 57 on one cell. *)
Definition amount_cell (v : value) : value :=
  Ser.fill_cell (VNum 0) (Ser.to_numeric_cell v).

(** Lines 61-66 on one text, and on one cell. *)
Definition status_text (s : pystr) : pystr :=
  Str.capitalize (Str.lower (Str.strip s)).

Definition status_cell (v : value) : value :=
  VStr (status_text (Ser.str_of_cell v)).

(** Lines 57-74 on one row of a frame whose labels are [cols]. *)
Definition clean_row (cols : list string) (r : Row) : Row :=
  upd_if cols "Faculty Name" (Ser.fill_cell (VStr (py "Unknown")))
    (upd_if cols "Domain" (Ser.fill_cell (VStr (py "Unspecified")))
      (upd_if cols "Co-investigator" (Ser.fill_cell (VStr (py "None")))
        (upd_if cols "Status" status_cell
          (upd "Amount(in lakhs)" amount_cell r)))).

Definition cleaned (df : DataFrame) : DataFrame :=
  {| columns := columns df; rows := map (clean_row (columns df)) (rows df) |}.

(** The frame the readers give for a source, if any: the spreadsheet when
    it is there and reads, else the CSV file when it is there and reads,
    under the default encoding or, after a decoding error, under Latin-1. *)
Definition raw_batch (fs : filesystem) (src : string * string * string)
    : option DataFrame :=
  let '(_, xlsx_name, csv_name) := src in
  match (if path_exists fs xlsx_name then excel_content fs xlsx_name
         else inl (OtherError "absent")) with
  | inr d => Some d
  | inl _ =>
    if path_exists fs csv_name then
      match csv_content fs csv_name DefaultEncoding with
      | inr d => Some d
      | inl (UnicodeDecodeError _) =>
        match csv_content fs csv_name Latin1 with
        | inr d => Some d
        | inl _ => None
        end
      | inl _ => None
      end
    else None
  end.

(** The tagged batch of a source, as a list of zero or one frame. *)
Definition batch_of (fs : filesystem) (src : string * string * string)
    : list DataFrame :=
  match raw_batch fs src with
  | Some d => [tag_batch src.1.1 d]
  | None => []
  end.

Definition batches (fs : filesystem) : list DataFrame :=
  flat_map (batch_of fs) files_to_check.

End reading.

Section provenance.
Context `{CellText}.

(** For each row of the data set, in order, the department of the source
    it was read from. *)
Definition provenance (fs : filesystem) : list string :=
  flat_map (λ src, match raw_batch fs src with
                   | Some d => replicate (nrows d) src.1.1
                   | None => []
                   end) files_to_check.


End provenance.

Section views.
Context `{CellText}.

(** The cell of row [r] under [c] is the text [t]. *)
Definition text_at (c : string) (t : pystr) (r : Row) : bool :=
  match cell c r with
  | VStr u => bool_decide (u = t)
  | _ => false
  end.

(** The filter the specification describes: a department choice other
    than the wildcard keeps the rows of that department; a status choice
    other than the wildcard keeps the rows of that status, when there is a
    [Status] column. *)
Definition keeps (df : DataFrame) (selected_dept selected_status : pystr)
    (r : Row) : bool :=
  (bool_decide (selected_dept = py "All") || text_at "Department" selected_dept r)
  && (bool_decide (selected_status = py "All")
      || negb (bool_decide ("Status" ∈ columns df))
      || text_at "Status" selected_status r).

(** The messages shown to the user, among the events of a trace. *)
Definition is_notice (e : event) : bool :=
  match e with
  | Toast _ | Warning _ | Error _ => true
  | _ => false
  end.

Definition notices (t : list event) : list event := List.filter is_notice t.

(** What [load_and_clean_data] can log. *)
Definition is_loader_event (e : event) : bool :=
  match e with
  | ReadExcel _ | ReadCsv _ _ | Toast _ | Warning _ | Error _ => true
  | _ => false
  end.

(** The file system with the path [x] taken away. *)
Definition without_file (x : string) (fs : filesystem) : filesystem :=
  {| path_exists p := if bool_decide (p = x) then false else path_exists fs p;
     excel_content := excel_content fs;
     csv_content := csv_content fs |}.


End views.

Section source_events.
Context `{CellText}.

(** What the loop body logs for a source. *)
Definition source_events (fs : filesystem) (src : string * string * string)
    : list event :=
  (load_source fs src []).2.

End source_events.

Section ascii_case.

(** The two case maps on ASCII letters, as functions on code points. *)
Definition low1 (c : N) : N :=
  if ((65 <=? c) && (c <=? 90))%N then (c + 32)%N else c.

Definition up1 (c : N) : N :=
  if ((97 <=? c) && (c <=? 122))%N then (c - 32)%N else c.

(** [capitalize] after [lower], position by position. *)
Definition cap_low (s : pystr) : pystr :=
  match s with
  | [] => []
  | c :: t => up1 (low1 c) :: map low1 t
  end.

(** Two texts with white space at the same positions. *)
Definition same_spaces (s t : pystr) : Prop :=
  Forall2 (λ a b, Str.isspace a = Str.isspace b) s t.

End ascii_case.

(* ------------------------------------------------------------------ *)
(** ** More readings of the program *)

Section more_views.
Context `{CellText}.

(** The number of rows read for a source. *)
Definition batch_rows (fs : filesystem) (src : string * string * string) : nat :=
  match raw_batch fs src with
  | Some d => nrows d
  | None => 0
  end.

(** The rows read from the sources, in reading order. *)
Definition rows_read (fs : filesystem) : list Row :=
  flat_map (λ src, match raw_batch fs src with
                   | Some d => rows d
                   | None => []
                   end) files_to_check.

(** What becomes of a row read for the department [dept] in a data set
    whose labels are [cols]. *)
Definition final_row (cols : list string) (dept : string) (r : Row) : Row :=
  clean_row cols
    (Frame.reindex cols
       (Frame.rename_row aliases (<["Department" := VStr (py dept)]> r))).

(** The labels that lines 42-74 write to or rename. *)
Definition touched_labels : list string :=
  ["Department"; "Amount(in lakhs)"; "Status"; "Co-investigator"; "Domain";
   "Faculty Name"; "Funding agency"; "Funding Agency"; "Co-Investigator"].

(** The message of line 50 for a source. *)
Definition not_found_message (src : string * string * string) : string :=
  "⚠️ Could not find readable data for " +:+ src.1.1 +:+
  ". Ensure '" +:+ src.1.2 +:+ "' or '" +:+ src.2 +:+
  "' is in the project folder.".

Definition is_warning (e : event) : bool :=
  match e with
  | Warning _ => true
  | _ => false
  end.

Definition is_csv_read (e : event) : bool :=
  match e with
  | ReadCsv _ _ => true
  | _ => false
  end.

(** The CSV file of a source is tried: the spreadsheet gave nothing and
    the CSV file is there. *)
Definition csv_tried (fs : filesystem) (src : string * string * string) : bool :=
  match (if path_exists fs src.1.2 then excel_content fs src.1.2
         else inl (OtherError "absent")) with
  | inr _ => false
  | inl _ => path_exists fs src.2
  end.

(** The CSV file of a source was tried and gave no frame. *)
Definition csv_failed (fs : filesystem) (src : string * string * string) : bool :=
  csv_tried fs src && negb (bool_decide (is_Some (raw_batch fs src))).

(** An uppercase, a lowercase ASCII letter. *)
Definition is_upper (c : N) : bool := ((65 <=? c) && (c <=? 90))%N.
Definition is_lower (c : N) : bool := ((97 <=? c) && (c <=? 122))%N.

(** The chart sections of [main] (lines 121-190), for the labels [cols]. *)
Definition chart_section (cols : list string) (c heading title : string)
    : list event :=
  Subheader heading :: (if bool_decide (c ∈ cols) then [PlotlyChart title] else []).

End more_views.

Section main_views.
Context `{CellText}.

(** The status choice that [main] uses: that of the select box when there
    is a [Status] column, the wildcard otherwise (lines 94-98). *)
Definition status_in_use (df : DataFrame) (status_choice : pystr) : pystr :=
  if bool_decide ("Status" ∈ columns df) then status_choice else py "All".

(** The rows that [main] keeps for the two choices. *)
Definition filtered (df : DataFrame) (dept_choice status_choice : pystr)
    : DataFrame :=
  {| columns := columns df;
     rows := List.filter (keeps df dept_choice (status_in_use df status_choice))
                         (rows df) |}.

(** The four figures of lines 109-112 on the filtered rows. *)
Definition summary_of (df df_filtered : DataFrame) : summary :=
  {| total_funding := series_sum (Frame.column "Amount(in lakhs)" df_filtered);
     total_projects := nrows df_filtered;
     unique_faculty :=
       if bool_decide ("Faculty Name" ∈ columns df)
       then nunique (Frame.column "Faculty Name" df_filtered) else 0;
     avg_funding :=
       if bool_decide (0 < nrows df_filtered)
       then (series_sum (Frame.column "Amount(in lakhs)" df_filtered)
             / float_of_nat (nrows df_filtered))%float
       else 0%float |}.

(** What [main] logs after the loader, on a data set that is not empty. *)
Definition page_events (df : DataFrame) (dept_choice status_choice : pystr)
    : list event :=
  let m := summary_of df (filtered df dept_choice status_choice) in
  [SidebarHeader "Filter Options"; Selectbox "Select Department"]
  ++ (if bool_decide ("Status" ∈ columns df) then [Selectbox "Project Status"]
      else [])
  ++ [Metric "Total Funding (Lakhs)" (MFloat (total_funding m));
      Metric "Total Projects" (MCount (total_projects m));
      Metric "Active Researchers" (MCount (unique_faculty m));
      Metric "Average Funding(in lakhs)" (MFloat (avg_funding m));
      Divider]
  ++ chart_section (columns df) "Domain" "Funding Distribution by Domain"
       "Total Funding by Research Domain"
  ++ chart_section (columns df) "Status" "Project Status Breakdown"
       "Percentage of Completed vs Ongoing Projects"
  ++ chart_section (columns df) "Faculty Name" "Top 10 Faculties by Grant Amount"
       "Top Fund Receivers"
  ++ chart_section (columns df) "Funding Agency" "Funding Agencies Contribution"
       "Funding Agency Hierarchy".

End main_views.

Section table_views.
Context `{CellText}.

(** The columns of the detail table: those of the seven that the frame has,
    in the order of line 207. *)
Definition shown_columns (df : DataFrame) : list string :=
  List.filter (λ c, bool_decide (c ∈ columns df))
    ["Department"; "Faculty Name"; "Title"; "Amount(in lakhs)";
     "Funding Agency"; "Status"; "Domain"].

(** The frame on the columns shown. *)
Definition table_of (df : DataFrame) : DataFrame :=
  {| columns := shown_columns df;
     rows := map (Frame.reindex (shown_columns df)) (rows df) |}.

(** A row is found by a search: the pattern is found in its title or, when
    there is a [Faculty Name] column, in its faculty name; a cell is
    searched as it prints, a missing one as [nan]. *)
Definition row_found (found : pystr → bool) (df : DataFrame) (r : Row) : bool :=
  found (Ser.str_of_cell (cell "Title" r))
  || (bool_decide ("Faculty Name" ∈ columns df)
      && found (Ser.str_of_cell (cell "Faculty Name" r))).

(** What the table section logs before the table. *)
Definition table_events : list event :=
  [Divider; Subheader " Detailed Project Data";
   Markdown "Use the table below to search for specific project titles or investigators."].

End table_views.

Section order_views.

(** Two neighbours are in order: the second is not below the first. *)
Definition in_order (s t : pystr) : Prop := Text.ltb t s = false.

End order_views.

(* ------------------------------------------------------------------ *)
(** ** Sample data

    A text reader for the examples: it reads unsigned decimal integers and
    nothing else, and prints every float as a question mark (no example
    prints one).  Then the scenario of the specification: the CSE
    spreadsheet holds one row, the ECE spreadsheet is missing and the ECE
    CSV file only decodes as Latin-1. *)

Module Example.

Definition digit (c : N) : option N :=
  if ((48 <=? c) && (c <=? 57))%N then Some (c - 48)%N else None.

Fixpoint digits (acc : N) (s : pystr) : option N :=
  match s with
  | [] => Some acc
  | c :: t => match digit c with
              | Some d => digits (10 * acc + d)%N t
              | None => None
              end
  end.

Definition read_decimal (s : pystr) : option float :=
  match s with
  | [] => None
  | _ => (λ n, PrimFloat.of_uint63 (Uint63.of_Z (Z.of_N n))) <$> digits 0 s
  end.

Definition decimal_text : CellText :=
  {| to_float := read_decimal; float_str := λ _, py "?" |}.

Definition cse_sheet : DataFrame :=
  {| columns := ["Status"; "Amount(in lakhs)"];
     rows := [ {[ "Status" := VStr (py " ongoing ");
                  "Amount(in lakhs)" := VStr (py "10") ]} ] |}.

Definition ece_sheet : DataFrame :=
  {| columns := ["Status"; "Amount(in lakhs)"];
     rows := [ {[ "Status" := VStr (py "COMPLETED");
                  "Amount(in lakhs)" := VStr (py "abc") ]} ] |}.

Definition fs : filesystem :=
  {| path_exists p := bool_decide (p = "CSEDATA.xlsx")
                      || bool_decide (p = "ECEDATA.xlsx - Sheet1.csv");
     excel_content p := inr cse_sheet;
     csv_content p enc :=
       match enc with
       | DefaultEncoding => inl (UnicodeDecodeError "invalid start byte")
       | Latin1 => inr ece_sheet
       end |}.

Definition dataset : DataFrame :=
  {| columns := ["Status"; "Amount(in lakhs)"; "Department"];
     rows := [ {[ "Status" := VStr (py "Ongoing");
                  "Amount(in lakhs)" := VNum 10;
                  "Department" := VStr (py "CSE") ]};
               {[ "Status" := VStr (py "Completed");
                  "Amount(in lakhs)" := VNum 0;
                  "Department" := VStr (py "ECE") ]} ] |}.

Definition trace : list event :=
  [ReadExcel "CSEDATA.xlsx";
   ReadCsv "ECEDATA.xlsx - Sheet1.csv" DefaultEncoding;
   ReadCsv "ECEDATA.xlsx - Sheet1.csv" Latin1;
   Toast "Loaded ECE data using 'latin1' encoding to resolve character errors."].

(** Only the CSE spreadsheet is there, and it has no amount column. *)
Definition titles_only : DataFrame :=
  {| columns := ["Title"];
     rows := [ {[ "Title" := VStr (py "Edge AI") ]} ] |}.

Definition fs_no_amount : filesystem :=
  {| path_exists p := bool_decide (p = "CSEDATA.xlsx");
     excel_content p := inr titles_only;
     csv_content p enc := inl (OtherError "no such file") |}.

(** Nothing is there. *)
Definition fs_nothing : filesystem :=
  {| path_exists p := false;
     excel_content p := inl (OtherError "no such file");
     csv_content p enc := inl (OtherError "no such file") |}.

(** The CSE spreadsheet is there but is corrupt; its CSV export reads. *)
Definition fs_bad_spreadsheet : filesystem :=
  {| path_exists p := bool_decide (p = "CSEDATA.xlsx")
                      || bool_decide (p = "CSEDATA.xlsx - Sheet1.csv");
     excel_content p := inl (OtherError "File is not a zip file");
     csv_content p enc := inr cse_sheet |}.

(** The ECE CSV file is there but is not a table. *)
Definition fs_bad_csv : filesystem :=
  {| path_exists p := bool_decide (p = "ECEDATA.xlsx - Sheet1.csv");
     excel_content p := inl (OtherError "no such file");
     csv_content p enc := inl (OtherError "Error tokenizing data") |}.




End Example.

(* ------------------------------------------------------------------ *)
(** ** More sample data

    A spreadsheet with titles, an alias label and a missing faculty name,
    read alone; and a sample pattern search for the examples: a pattern
    holding an opening parenthesis is refused, any other is looked for as
    it is, ASCII letters being compared without case. *)

Module Sample.

Definition grants_sheet : DataFrame :=
  {| columns := ["Title"; "Amount(in lakhs)"; "Funding agency"; "Faculty Name"];
     rows := [ {[ "Title" := VStr (py "Edge AI");
                  "Amount(in lakhs)" := VStr (py "12");
                  "Funding agency" := VStr (py "DST");
                  "Faculty Name" := VNull ]};
               {[ "Title" := VNull;
                  "Amount(in lakhs)" := VStr (py "8");
                  "Funding agency" := VStr (py "AICTE");
                  "Faculty Name" := VStr (py "Rao") ]} ] |}.

Definition fs : filesystem :=
  {| path_exists p := bool_decide (p = "CSEDATA.xlsx");
     excel_content p := inr grants_sheet;
     csv_content p enc := inl (OtherError "no such file") |}.

Definition dataset : DataFrame :=
  {| columns := ["Title"; "Amount(in lakhs)"; "Funding Agency"; "Faculty Name";
                 "Department"];
     rows := [ {[ "Title" := VStr (py "Edge AI");
                  "Amount(in lakhs)" := VNum 12;
                  "Funding Agency" := VStr (py "DST");
                  "Faculty Name" := VStr (py "Unknown");
                  "Department" := VStr (py "CSE") ]};
               {[ "Title" := VNull;
                  "Amount(in lakhs)" := VNum 8;
                  "Funding Agency" := VStr (py "AICTE");
                  "Faculty Name" := VStr (py "Rao");
                  "Department" := VStr (py "CSE") ]} ] |}.

Definition trace : list event :=
  [ReadExcel "CSEDATA.xlsx";
   Error "⚠️ Could not find readable data for ECE. Ensure 'ECEDATA.xlsx' or 'ECEDATA.xlsx - Sheet1.csv' is in the project folder."].

Fixpoint starts_with (pat text : pystr) : bool :=
  match pat, text with
  | [], _ => true
  | _ :: _, [] => false
  | a :: pat', b :: text' => bool_decide (a = b) && starts_with pat' text'
  end.

Fixpoint occurs_in (pat text : pystr) : bool :=
  starts_with pat text
  || match text with
     | [] => false
     | _ :: text' => occurs_in pat text'
     end.

Definition plain_search : TextSearch :=
  {| compile_ignorecase pat :=
       if bool_decide (40%N ∈ pat)
       then inl (OtherError "missing ), unterminated subpattern")
       else inr (λ text, occurs_in (Str.lower pat) (Str.lower text)) |}.

End Sample.

(* ------------------------------------------------------------------ *)
(** ** Python strings: stripping and casing of ASCII text *)

Section str_facts.

Lemma isspace_letter c : (33 ≤ c ≤ 132)%N → Str.isspace c = false.
Proof.
  intros Hc. unfold Str.isspace. apply bool_decide_eq_false_2.
  unfold Str.whitespace. intros Hin.
  repeat (apply elem_of_cons in Hin as [->|Hin]; [lia|]).
  by apply elem_of_nil in Hin.
Qed.

Lemma isspace_low1 c : Str.isspace (low1 c) = Str.isspace c.
Proof.
  unfold low1. destruct ((65 <=? c) && (c <=? 90))%N eqn:E; [|done].
  apply andb_prop in E as [?%N.leb_le ?%N.leb_le].
  rewrite !isspace_letter; [done|lia..].
Qed.

Lemma isspace_up1 c : Str.isspace (up1 c) = Str.isspace c.
Proof.
  unfold up1. destruct ((97 <=? c) && (c <=? 122))%N eqn:E; [|done].
  apply andb_prop in E as [?%N.leb_le ?%N.leb_le].
  rewrite !isspace_letter; [done|lia..].
Qed.

Ltac case_ranges :=
  repeat (match goal with
          | |- context [(?a <=? ?b)%N] => destruct (N.leb_spec a b)
          end; simpl in *);
  try done; try lia; try (f_equal; lia).

Lemma low1_idem c : low1 (low1 c) = low1 c.
Proof. unfold low1. case_ranges. Qed.


Lemma low1_ascii c : (c <? 128)%N = true → (low1 c <? 128)%N = true.
Proof. rewrite !N.ltb_lt. unfold low1. case_ranges. Qed.


(** In the tables, lower-casing is one code point for one code point, and
    so is title-casing of an ASCII code point. *)
Lemma lower_map s : Str.lower s = map low1 s.
Proof.
  unfold Str.lower. induction s as [|c s IH]; simpl; [done|].
  rewrite IH. unfold Str.lower_cp, low1. by destruct (_ && _).
Qed.

Lemma title_cp_ascii c : (c <? 128)%N = true → Str.title_cp c = [up1 c].
Proof.
  rewrite N.ltb_lt. intros Hc. unfold Str.title_cp, up1.
  destruct (_ && _); [done|].
  destruct (c =? 329)%N eqn:E; [|done]. apply N.eqb_eq in E. lia.
Qed.

Lemma capitalize_lower_ascii s :
  Str.is_ascii s = true → Str.capitalize (Str.lower s) = cap_low s.
Proof.
  rewrite lower_map. destruct s as [|c s]; simpl; [done|].
  intros [Hc Hs]%andb_prop.
  rewrite title_cp_ascii by by apply low1_ascii.
  rewrite lower_map, map_map. simpl. f_equal.
  apply map_ext. intros a. apply low1_idem.
Qed.




(** Stripping. *)
Lemma lstrip_suffix s : ∃ pre, s = pre ++ Str.lstrip s.
Proof.
  induction s as [|c s [pre IH]]; simpl; [by exists []|].
  destruct (Str.isspace c); [|by exists []].
  exists (c :: pre). simpl. by rewrite <- IH.
Qed.

Lemma lstrip_fixed s :
  Str.lstrip s = s ↔ match s with [] => True | c :: _ => Str.isspace c = false end.
Proof.
  destruct s as [|c s]; simpl; [done|].
  destruct (Str.isspace c) eqn:E; [|done]. split; [|done].
  intros Heq. destruct (lstrip_suffix s) as [pre Hpre].
  apply (f_equal length) in Heq. rewrite Hpre in Heq at 2.
  simpl in Heq. rewrite length_app in Heq. lia.
Qed.

Lemma lstrip_idem s : Str.lstrip (Str.lstrip s) = Str.lstrip s.
Proof.
  induction s as [|c s IH]; simpl; [done|].
  destruct (Str.isspace c) eqn:E; [done|]. simpl. by rewrite E.
Qed.

Lemma rstrip_prefix s : ∃ suf, s = Str.rstrip s ++ suf.
Proof.
  unfold Str.rstrip. destruct (lstrip_suffix (reverse s)) as [pre Hpre].
  exists (reverse pre). rewrite <- reverse_app, <- Hpre.
  by rewrite reverse_involutive.
Qed.

Lemma rstrip_idem s : Str.rstrip (Str.rstrip s) = Str.rstrip s.
Proof. unfold Str.rstrip. by rewrite reverse_involutive, lstrip_idem. Qed.

Lemma lstrip_rstrip s : Str.lstrip s = s → Str.lstrip (Str.rstrip s) = Str.rstrip s.
Proof.
  rewrite !lstrip_fixed. destruct (rstrip_prefix s) as [suf Hsuf].
  destruct (Str.rstrip s) as [|c r]; [done|].
  rewrite Hsuf. done.
Qed.

Lemma strip_ends s :
  Str.lstrip (Str.strip s) = Str.strip s ∧ Str.rstrip (Str.strip s) = Str.strip s.
Proof.
  unfold Str.strip. split; [|apply rstrip_idem].
  apply lstrip_rstrip, lstrip_idem.
Qed.

(** Two texts with white space at the same positions are stripped alike. *)
Lemma lstrip_same_spaces s t :
  same_spaces s t → Str.lstrip s = s → Str.lstrip t = t.
Proof.
  rewrite !lstrip_fixed. intros Hst. destruct Hst as [|a b s t Hab _]; [done|].
  by rewrite Hab.
Qed.

Lemma rstrip_fixed_reverse s : Str.rstrip s = s ↔ Str.lstrip (reverse s) = reverse s.
Proof.
  unfold Str.rstrip. split; intros Heq.
  - rewrite <- Heq at 2. by rewrite reverse_involutive.
  - by rewrite Heq, reverse_involutive.
Qed.

Lemma strip_same_spaces s t :
  same_spaces s t →
  Str.lstrip s = s → Str.rstrip s = s → Str.strip t = t.
Proof.
  intros Hst Hl Hr. unfold Str.strip.
  rewrite (lstrip_same_spaces s t Hst Hl).
  apply rstrip_fixed_reverse. apply rstrip_fixed_reverse in Hr.
  apply (lstrip_same_spaces (reverse s) (reverse t)); [|done].
  by apply Forall2_reverse.
Qed.

Lemma same_spaces_cap_low s : same_spaces s (cap_low s).
Proof.
  destruct s as [|c s]; simpl; constructor.
  - by rewrite isspace_up1, isspace_low1.
  - induction s as [|a s IH]; simpl; constructor; [|done].
    by rewrite isspace_low1.
Qed.

Lemma is_ascii_lstrip s : Str.is_ascii s = true → Str.is_ascii (Str.lstrip s) = true.
Proof.
  induction s as [|c s IH]; simpl; [done|].
  intros Hcs. destruct (Str.isspace c); [|done].
  apply andb_prop in Hcs as [_ Hs]. by apply IH.
Qed.

Lemma is_ascii_reverse s : Str.is_ascii (reverse s) = Str.is_ascii s.
Proof.
  unfold Str.is_ascii. induction s as [|c s IH]; simpl; [done|].
  rewrite reverse_cons, forallb_app, IH. simpl.
  rewrite andb_true_r. apply andb_comm.
Qed.

Lemma is_ascii_strip s : Str.is_ascii s = true → Str.is_ascii (Str.strip s) = true.
Proof.
  intros Hs. unfold Str.strip, Str.rstrip.
  rewrite is_ascii_reverse. apply is_ascii_lstrip.
  rewrite is_ascii_reverse. by apply is_ascii_lstrip.
Qed.

End str_facts.

(* ------------------------------------------------------------------ *)
(** ** Computations *)

Section monad_facts.

Lemma bind_returns {A B} (m : M A) (f : A → M B) a :
  m.1 = Returns a → (m ≫= f) = ((f a).1, m.2 ++ (f a).2).
Proof. intros E. unfold mbind, M_bind. by rewrite E. Qed.

Lemma bind_raises {A B} (m : M A) (f : A → M B) e :
  m.1 = Raises e → (m ≫= f) = (Raises e, m.2).
Proof. intros E. unfold mbind, M_bind. by rewrite E. Qed.

Lemma bind_mret {A B} (a : A) (f : A → M B) : (mret a ≫= f) = f a.
Proof. unfold mbind, M_bind, mret, M_ret. simpl. by destruct (f a). Qed.

End monad_facts.

(* ------------------------------------------------------------------ *)
(** ** Frames *)

Section frame_facts.
Context `{CellText}.

Lemma zip_with_map_r {A B C} (g : A → B → C) (h : A → B) (l : list A) :
  zip_with g l (map h l) = map (λ x, g x (h x)) l.
Proof. induction l as [|x l IH]; simpl; [done | by rewrite IH]. Qed.

Lemma zip_with_replicate_r {A B C} (g : A → B → C) (b : B) (l : list A) :
  zip_with g l (replicate (length l) b) = map (λ x, g x b) l.
Proof. induction l as [|x l IH]; simpl; [done | by rewrite IH]. Qed.

(** Writing back a column computed cell by cell from itself. *)
Lemma set_column_map c f df :
  c ∈ columns df →
  Frame.set_column c (map f (Frame.column c df)) df
  = {| columns := columns df; rows := map (upd c f) (rows df) |}.
Proof.
  intros Hc. unfold Frame.set_column, Frame.column.
  rewrite bool_decide_eq_true_2 by done.
  f_equal. rewrite map_map. apply (zip_with_map_r (λ r v, <[c:=v]> r)).
Qed.

Lemma getitem_present c df :
  c ∈ columns df → getitem c df = mret (Frame.column c df).
Proof. intros Hc. unfold getitem. by rewrite bool_decide_eq_true_2. Qed.

Lemma getitem_absent c df :
  c ∉ columns df → getitem c df = raise (KeyError c).
Proof. intros Hc. unfold getitem. by rewrite bool_decide_eq_false_2. Qed.

Lemma status_series_map s : status_series s = map status_cell s.
Proof.
  unfold status_series, Ser.str_capitalize, Ser.str_lower, Ser.str_strip,
    Ser.astype_str.
  rewrite !map_map. done.
Qed.

Lemma amount_series_map s :
  Ser.fillna (VNum 0) (Ser.to_numeric_coerce s) = map amount_cell s.
Proof. unfold Ser.fillna, Ser.to_numeric_coerce. by rewrite map_map. Qed.

Lemma fill_if_present_spec c d df :
  fill_if_present c d df
  = mret {| columns := columns df;
            rows := map (upd_if (columns df) c (Ser.fill_cell d)) (rows df) |}.
Proof.
  unfold fill_if_present, upd_if. case_bool_decide as Hc.
  - rewrite getitem_present, bind_mret by done.
    unfold Ser.fillna. by rewrite set_column_map.
  - rewrite map_id. by destruct df.
Qed.

(** [clean] fails exactly on a frame without the amount column, and
    otherwise works row by row. *)
Lemma clean_spec df :
  clean df = if bool_decide ("Amount(in lakhs)" ∈ columns df)
             then mret (cleaned df)
             else raise (KeyError "Amount(in lakhs)").
Proof.
  unfold clean. case_bool_decide as Ha.
  - rewrite getitem_present, bind_mret by done.
    rewrite amount_series_map, set_column_map by done.
    assert (∀ d : DataFrame,
      (if bool_decide ("Status" ∈ columns d)
       then s ← getitem "Status" d;
            mret (Frame.set_column "Status" (status_series s) d)
       else mret d)
      = mret {| columns := columns d;
                rows := map (upd_if (columns d) "Status" status_cell) (rows d) |})
      as Hst.
    { intros d. unfold upd_if. case_bool_decide as Hs.
      - rewrite getitem_present, bind_mret by done.
        by rewrite status_series_map, set_column_map.
      - rewrite map_id. by destruct d. }
    rewrite Hst, bind_mret. cbn [columns rows].
    do 3 (rewrite fill_if_present_spec, bind_mret; cbn [columns rows]).
    unfold cleaned, clean_row. by rewrite !map_map.
  - by rewrite getitem_absent, (bind_raises _ _ (KeyError "Amount(in lakhs)")).
Qed.

End frame_facts.

(* ------------------------------------------------------------------ *)
(** ** The loader *)

Ltac run_monad :=
  unfold read_excel, read_csv, of_read, try_except, emit, raise, stop,
    mbind, M_bind, mret, M_ret in *; simpl in *.

Section loader_facts.
Context `{CellText}.

(** The loop body never fails, and appends the tagged batch, if any. *)
Lemma load_source_outcome fs src dfs :
  (load_source fs src dfs).1 = Returns (dfs ++ batch_of fs src).
Proof.
  destruct src as [[dept xlsx_name] csv_name].
  unfold load_source, try_excel, try_csv, batch_of, raw_batch. run_monad.
  destruct (path_exists fs xlsx_name);
    [destruct (excel_content fs xlsx_name) as [e|d]|]; simpl; try done.
  all: destruct (path_exists fs csv_name); simpl; try by rewrite app_nil_r.
  all: destruct (csv_content fs csv_name DefaultEncoding) as [[m|k|m]|d0];
    simpl; try by rewrite ?app_nil_r.
  all: destruct (csv_content fs csv_name Latin1) as [e'|d']; simpl.
  all: by rewrite ?app_nil_r.
Qed.

Lemma load_sources_outcome fs srcs dfs :
  (load_sources fs srcs dfs).1 = Returns (dfs ++ flat_map (batch_of fs) srcs).
Proof.
  revert dfs. induction srcs as [|src srcs IH]; intros dfs; simpl.
  - by rewrite app_nil_r.
  - rewrite (bind_returns _ _ _ (load_source_outcome fs src dfs)). simpl.
    by rewrite IH, <- app_assoc.
Qed.

(** How [load_and_clean_data] ends, in terms of the batches read. *)
Lemma load_outcome fs :
  (load_and_clean_data fs).1
  = if bool_decide (batches fs = []) then Returns empty_frame
    else if bool_decide ("Amount(in lakhs)" ∈ columns (Frame.concat (batches fs)))
         then Returns (cleaned (Frame.concat (batches fs)))
         else Raises (KeyError "Amount(in lakhs)").
Proof.
  unfold load_and_clean_data.
  rewrite (bind_returns _ _ _ (load_sources_outcome fs files_to_check [])).
  cbn [fst app]. fold (batches fs).
  case_bool_decide; [done|].
  rewrite clean_spec. by case_bool_decide.
Qed.

End loader_facts.

(* ------------------------------------------------------------------ *)
(** ** Rows of the cleaned frame *)

Ltac row_lookup :=
  unfold clean_row, upd_if, upd, cell;
  repeat case_bool_decide; simplify_map_eq; try done.

Section row_facts.
Context `{CellText}.


Lemma clean_row_status cols r :
  "Status" ∈ cols →
  clean_row cols r !! "Status" = Some (status_cell (cell "Status" r)).
Proof. intros Hs. row_lookup. Qed.

Lemma clean_row_coinvestigator cols r :
  "Co-investigator" ∈ cols →
  clean_row cols r !! "Co-investigator"
  = Some (Ser.fill_cell (VStr (py "None")) (cell "Co-investigator" r)).
Proof. intros Hs. row_lookup. Qed.

Lemma clean_row_domain cols r :
  "Domain" ∈ cols →
  clean_row cols r !! "Domain"
  = Some (Ser.fill_cell (VStr (py "Unspecified")) (cell "Domain" r)).
Proof. intros Hs. row_lookup. Qed.

Lemma clean_row_faculty cols r :
  "Faculty Name" ∈ cols →
  clean_row cols r !! "Faculty Name"
  = Some (Ser.fill_cell (VStr (py "Unknown")) (cell "Faculty Name" r)).
Proof. intros Hs. row_lookup. Qed.

Lemma clean_row_department cols r :
  clean_row cols r !! "Department" = r !! "Department".
Proof. row_lookup. Qed.


Lemma fill_cell_notna d v :
  Ser.isna d = false → Ser.isna (Ser.fill_cell d v) = false.
Proof. intros Hd. unfold Ser.fill_cell. by destruct (Ser.isna v) eqn:E. Qed.


End row_facts.

(* ------------------------------------------------------------------ *)
(** ** Concatenation and tagging *)

Section concat_facts.
Context `{CellText}.

Lemma elem_of_flat_map {A B} (f : A → list B) (l : list A) (y : B) :
  y ∈ flat_map f l ↔ ∃ x, x ∈ l ∧ y ∈ f x.
Proof.
  rewrite list_elem_of_In, in_flat_map.
  by setoid_rewrite list_elem_of_In.
Qed.

Lemma elem_of_add_labels c acc l :
  c ∈ foldl Frame.add_label acc l ↔ c ∈ acc ∨ c ∈ l.
Proof.
  revert acc. induction l as [|x l IH]; intros acc; simpl.
  - rewrite elem_of_nil. tauto.
  - rewrite IH. unfold Frame.add_label. case_bool_decide as Hx.
    + rewrite elem_of_cons. split; [tauto|]. intros [?|[->|?]]; tauto.
    + rewrite elem_of_app, !elem_of_cons, elem_of_nil. tauto.
Qed.


Lemma elem_of_union_labels c dfs :
  c ∈ Frame.union_labels dfs ↔ ∃ d, d ∈ dfs ∧ c ∈ columns d.
Proof.
  unfold Frame.union_labels. rewrite elem_of_add_labels, elem_of_nil.
  rewrite elem_of_flat_map. tauto.
Qed.


Lemma lookup_reindex cols r c :
  Frame.reindex cols r !! c = if bool_decide (c ∈ cols) then Some (cell c r) else None.
Proof.
  induction cols as [|x cols IH]; simpl.
  - by rewrite lookup_empty.
  - destruct (decide (x = c)) as [->|Hne].
    + rewrite lookup_insert_eq, bool_decide_eq_true_2; [done|left].
    + rewrite lookup_insert_ne, IH by done.
      destruct (decide (c ∈ cols)) as [Hin|Hin].
      * rewrite (bool_decide_eq_true_2 _ Hin).
        rewrite bool_decide_eq_true_2; [done|by right].
      * rewrite (bool_decide_eq_false_2 _ Hin).
        rewrite bool_decide_eq_false_2; [done|].
        intros [->|?]%elem_of_cons; done.
Qed.

Lemma cell_reindex cols r c :
  c ∈ cols → cell c (Frame.reindex cols r) = cell c r.
Proof. intros Hc. unfold cell at 1. by rewrite lookup_reindex, bool_decide_eq_true_2. Qed.

(** Folding the aliases leaves the other labels of a row alone. *)
Lemma lookup_rename_row_other r c :
  c ∉ ["Funding agency"; "Funding Agency"; "Co-Investigator"; "Co-investigator"] →
  Frame.rename_row aliases r !! c = r !! c.
Proof.
  intros Hc. unfold Frame.rename_row, aliases, Frame.move_key. simpl.
  repeat rewrite not_elem_of_cons in Hc. destruct Hc as (?&?&?&?&_).
  repeat case_match;
    repeat first [rewrite lookup_insert_ne by done
                 |rewrite lookup_delete_ne by done]; done.
Qed.

Lemma rename_label_other c :
  c ∉ ["Funding agency"; "Co-Investigator"] → Frame.rename_label aliases c = c.
Proof.
  intros Hc. unfold aliases. simpl.
  repeat rewrite not_elem_of_cons in Hc. destruct Hc as (?&?&_).
  by repeat case_bool_decide.
Qed.

(** A tagged batch: every row carries the department, one row per row read. *)
Lemma tag_batch_rows dept d :
  rows (tag_batch dept d)
  = map (λ r, Frame.rename_row aliases (<["Department" := VStr (py dept)]> r)) (rows d).
Proof.
  unfold tag_batch, Frame.rename, Frame.set_scalar, Frame.set_column, nrows. simpl.
  rewrite zip_with_replicate_r. by rewrite map_map.
Qed.

Lemma tag_batch_department_label dept d : "Department" ∈ columns (tag_batch dept d).
Proof.
  unfold tag_batch, Frame.rename, Frame.set_scalar, Frame.set_column. simpl.
  apply list_elem_of_fmap. exists "Department". split; [done|].
  case_bool_decide; [done|]. apply elem_of_app. right. by left.
Qed.

Lemma tag_batch_department_cell dept d r :
  r ∈ rows (tag_batch dept d) → r !! "Department" = Some (VStr (py dept)).
Proof.
  rewrite tag_batch_rows. intros (r0 & -> & _)%list_elem_of_fmap.
  rewrite lookup_rename_row_other
    by (repeat rewrite not_elem_of_cons; split_and!; try done; apply not_elem_of_nil).
  apply lookup_insert_eq.
Qed.

End concat_facts.

(* ------------------------------------------------------------------ *)
(** ** The data set that [load_and_clean_data] returns *)

Section dataset_facts.
Context `{CellText}.

(** A returned data set is the concatenation of the batches, cleaned row
    by row (with no batch, both are empty). *)
Lemma load_returns fs df t :
  load_and_clean_data fs = (Returns df, t) →
  columns df = columns (Frame.concat (batches fs))
  ∧ rows df = map (clean_row (columns df)) (rows (Frame.concat (batches fs))).
Proof.
  intros Hload. pose proof (load_outcome fs) as Hout.
  rewrite Hload in Hout. simpl in Hout.
  case_bool_decide as Hb.
  - injection Hout as ->. by rewrite Hb.
  - case_bool_decide; [|done]. by injection Hout as ->.
Qed.

Lemma Forall2_map_same {A B} (P : A → B → Prop) (f : A → B) (l : list A) :
  (∀ x, x ∈ l → P x (f x)) → Forall2 P l (map f l).
Proof.
  induction l as [|x l IH]; intros HP; simpl; constructor.
  - apply HP. by left.
  - apply IH. intros y Hy. apply HP. by right.
Qed.

Lemma map_const_replicate {A B} (f : A → B) (b : B) (l : list A) :
  (∀ x, x ∈ l → f x = b) → map f l = replicate (length l) b.
Proof.
  induction l as [|x l IH]; intros Hf; simpl; [done|].
  rewrite Hf by left. f_equal. apply IH. intros y Hy. apply Hf. by right.
Qed.

Lemma length_tag_batch dept d : length (rows (tag_batch dept d)) = nrows d.
Proof. rewrite tag_batch_rows. apply length_map. Qed.

Lemma department_of_batch fs cols cols' src :
  (∀ d, d ∈ batch_of fs src → "Department" ∈ cols) →
  map (λ r, clean_row cols' r !! "Department")
      (flat_map (λ d, map (Frame.reindex cols) (rows d)) (batch_of fs src))
  = map (λ dept, Some (VStr (py dept)))
      (match raw_batch fs src with
       | Some d => replicate (nrows d) src.1.1
       | None => []
       end).
Proof.
  unfold batch_of. destruct (raw_batch fs src) as [d|]; [|done].
  intros Hcols. cbn [flat_map]. rewrite app_nil_r, map_map, fmap_replicate.
  rewrite <- (length_tag_batch src.1.1 d).
  apply map_const_replicate. intros r Hr.
  rewrite clean_row_department, lookup_reindex, bool_decide_eq_true_2.
  - unfold cell. by rewrite (tag_batch_department_cell _ _ _ Hr).
  - apply (Hcols (tag_batch src.1.1 d)). by left.
Qed.

Lemma department_of_batches fs cols cols' srcs :
  (∀ d, d ∈ flat_map (batch_of fs) srcs → "Department" ∈ cols) →
  map (λ r, clean_row cols' r !! "Department")
      (flat_map (λ d, map (Frame.reindex cols) (rows d)) (flat_map (batch_of fs) srcs))
  = map (λ dept, Some (VStr (py dept)))
      (flat_map (λ src, match raw_batch fs src with
                        | Some d => replicate (nrows d) src.1.1
                        | None => []
                        end) srcs).
Proof.
  induction srcs as [|src srcs IH]; intros Hcols; [done|].
  cbn [flat_map]. rewrite flat_map_app, !map_app. f_equal.
  - apply department_of_batch. intros d Hd. apply (Hcols d).
    cbn [flat_map]. apply elem_of_app. by left.
  - apply IH. intros d Hd. apply (Hcols d).
    cbn [flat_map]. apply elem_of_app. by right.
Qed.

End dataset_facts.

(* ------------------------------------------------------------------ *)
(** ** Traces *)

Section trace_facts.
Context `{CellText}.

Lemma bind_emit {B} (e : event) (k : M B) : (emit e ;; k) = (k.1, e :: k.2).
Proof. done. Qed.

Lemma bind_trace_Forall {A B} (P : event → Prop) (m : M A) (f : A → M B) :
  Forall P m.2 → (∀ a, Forall P (f a).2) → Forall P (m ≫= f).2.
Proof.
  intros Hm Hf. unfold mbind, M_bind.
  destruct m.1; simpl; [apply Forall_app; auto | done | done].
Qed.

Lemma load_source_trace fs src dfs :
  Forall (λ e, is_loader_event e = true) (load_source fs src dfs).2.
Proof.
  destruct src as [[dept xlsx_name] csv_name].
  unfold load_source, try_excel, try_csv. run_monad.
  destruct (path_exists fs xlsx_name);
    [destruct (excel_content fs xlsx_name) as [e|d]|]; simpl.
  all: destruct (path_exists fs csv_name); simpl.
  all: try destruct (csv_content fs csv_name DefaultEncoding) as [[m|k|m]|d0];
    simpl.
  all: try destruct (csv_content fs csv_name Latin1) as [e'|d']; simpl.
  all: repeat constructor.
Qed.

Lemma load_sources_trace fs srcs dfs :
  Forall (λ e, is_loader_event e = true) (load_sources fs srcs dfs).2.
Proof.
  revert dfs. induction srcs as [|src srcs IH]; intros dfs; simpl; [done|].
  apply bind_trace_Forall; [apply load_source_trace | intros a; apply IH].
Qed.

Lemma clean_trace df : (clean df).2 = [].
Proof. rewrite clean_spec. by case_bool_decide. Qed.

Lemma load_trace fs :
  Forall (λ e, is_loader_event e = true) (load_and_clean_data fs).2.
Proof.
  unfold load_and_clean_data.
  apply bind_trace_Forall; [apply load_sources_trace|].
  intros dfs. case_bool_decide; [done|]. by rewrite clean_trace.
Qed.

End trace_facts.

(* ------------------------------------------------------------------ *)
(** ** Filtering and the summary *)

Section filter_facts.
Context `{CellText}.

Lemma keep_map_mask (p : Row → bool) (rs : list Row) :
  Frame.keep rs (map p rs) = List.filter p rs.
Proof.
  induction rs as [|r rs IH]; simpl; [done|]. rewrite IH. by destruct (p r).
Qed.

Lemma eq_text_column c t df :
  Ser.eq_text t (Frame.column c df) = map (text_at c t) (rows df).
Proof. unfold Ser.eq_text, Frame.column, text_at. by rewrite map_map. Qed.

Lemma filter_filter_andb {A} (p q : A → bool) (l : list A) :
  List.filter q (List.filter p l) = List.filter (λ x, p x && q x) l.
Proof.
  induction l as [|x l IH]; simpl; [done|].
  destruct (p x); simpl; [destruct (q x)|]; by rewrite IH.
Qed.

Lemma filter_true {A} (p : A → bool) (l : list A) :
  (∀ x, p x = true) → List.filter p l = l.
Proof.
  intros Hp. induction l as [|x l IH]; simpl; [done|]. by rewrite Hp, IH.
Qed.

Lemma filter_ext_bool {A} (p q : A → bool) (l : list A) :
  (∀ x, p x = q x) → List.filter p l = List.filter q l.
Proof.
  intros Hpq. induction l as [|x l IH]; simpl; [done|]. by rewrite Hpq, IH.
Qed.

(** The two filters of [main] on a frame with a [Department] column. *)
Lemma filter_rows_spec df selected_dept selected_status :
  "Department" ∈ columns df →
  filter_rows df selected_dept selected_status
  = mret {| columns := columns df;
            rows := List.filter (keeps df selected_dept selected_status) (rows df) |}.
Proof.
  intros Hd. unfold filter_rows.
  assert ((if bool_decide (selected_dept ≠ py "All")
           then d ← getitem "Department" df;
                mret (Frame.select (Ser.eq_text selected_dept d) df)
           else mret df)
          = mret {| columns := columns df;
                    rows := List.filter
                      (λ r, bool_decide (selected_dept = py "All")
                            || text_at "Department" selected_dept r) (rows df) |})
    as ->.
  { case_bool_decide as Hsel.
    - rewrite getitem_present, bind_mret by done.
      unfold Frame.select. rewrite eq_text_column, keep_map_mask.
      by rewrite (bool_decide_eq_false_2 _ Hsel).
    - rewrite (bool_decide_eq_true_2 _ Hsel). simpl.
      rewrite filter_true by done. by destruct df. }
  rewrite bind_mret.
  match goal with |- context [getitem "Status" ?d] => set (d1 := d) end.
  assert (columns d1 = columns df) as Hc1 by done.
  rewrite Hc1.
  case_bool_decide as Hsel; cbn [andb].
  - case_bool_decide as Hst.
    + rewrite getitem_present, !bind_mret by (by rewrite Hc1).
      unfold Frame.select. rewrite eq_text_column, keep_map_mask.
      rewrite Hc1. subst d1. cbn [rows].
      rewrite filter_filter_andb. do 2 f_equal.
      apply filter_ext_bool. intros r. unfold keeps.
      by rewrite (bool_decide_eq_false_2 _ Hsel), (bool_decide_eq_true_2 _ Hst).
    + rewrite !bind_mret. subst d1. do 2 f_equal.
      apply filter_ext_bool. intros r. unfold keeps.
      rewrite (bool_decide_eq_false_2 _ Hst). simpl.
      by rewrite orb_true_r, andb_true_r.
  - rewrite !bind_mret. subst d1. do 2 f_equal.
    apply filter_ext_bool. intros r. unfold keeps.
    rewrite (bool_decide_eq_true_2 _ Hsel). simpl. by rewrite andb_true_r.
Qed.

(** A data set that is not empty has a [Department] column. *)
Lemma load_department_label fs df t :
  load_and_clean_data fs = (Returns df, t) →
  is_empty df = false → "Department" ∈ columns df.
Proof.
  intros Hload Hne. pose proof (load_returns _ _ _ Hload) as [Hcols Hrows].
  rewrite Hcols. unfold Frame.concat. cbn [columns].
  destruct (batches fs) as [|d ds] eqn:Hb.
  - unfold is_empty in Hne. rewrite Hcols in Hne. done.
  - apply elem_of_union_labels. exists d. split; [by left|].
    assert (d ∈ batches fs) as Hd by (rewrite Hb; by left).
    unfold batches in Hd. apply elem_of_flat_map in Hd as (src & _ & Hd).
    unfold batch_of in Hd.
    destruct (raw_batch fs src); [|by apply elem_of_nil in Hd].
    apply list_elem_of_singleton in Hd as ->. apply tag_batch_department_label.
Qed.

Lemma load_amount_label fs df t :
  load_and_clean_data fs = (Returns df, t) →
  is_empty df = false → "Amount(in lakhs)" ∈ columns df.
Proof.
  intros Hload Hne. pose proof (load_outcome fs) as Hout.
  rewrite Hload in Hout. simpl in Hout.
  case_bool_decide as Hb.
  - injection Hout as ->. done.
  - case_bool_decide as Ha; [|done]. by injection Hout as ->.
Qed.

End filter_facts.

Section summary_facts.
Context `{CellText}.

Lemma summarize_spec df df_filtered :
  "Amount(in lakhs)" ∈ columns df_filtered →
  columns df_filtered = columns df →
  summarize df df_filtered
  = mret {| total_funding := series_sum (Frame.column "Amount(in lakhs)" df_filtered);
            total_projects := nrows df_filtered;
            unique_faculty :=
              if bool_decide ("Faculty Name" ∈ columns df)
              then nunique (Frame.column "Faculty Name" df_filtered) else 0;
            avg_funding :=
              if bool_decide (0 < nrows df_filtered)
              then (series_sum (Frame.column "Amount(in lakhs)" df_filtered)
                    / float_of_nat (nrows df_filtered))%float
              else 0%float |}.
Proof.
  intros Ha Hc. unfold summarize.
  rewrite (getitem_present "Amount(in lakhs)"), bind_mret by done.
  destruct (decide ("Faculty Name" ∈ columns df)) as [Hf|Hf].
  - rewrite (bool_decide_eq_true_2 _ Hf).
    rewrite getitem_present, !bind_mret by (by rewrite Hc). done.
  - rewrite (bool_decide_eq_false_2 _ Hf). by rewrite bind_mret.
Qed.

End summary_facts.

(* ------------------------------------------------------------------ *)
(** ** The loader, source by source *)

Section source_facts.
Context `{CellText}.

(** The log of the loop body does not depend on the batches read so far. *)
Lemma load_source_events fs src dfs :
  (load_source fs src dfs).2 = source_events fs src.
Proof.
  unfold source_events. destruct src as [[dept xlsx_name] csv_name].
  unfold load_source, try_excel, try_csv. run_monad.
  destruct (path_exists fs xlsx_name);
    [destruct (excel_content fs xlsx_name) as [e|d]|]; simpl.
  all: destruct (path_exists fs csv_name); simpl; try done.
  all: destruct (csv_content fs csv_name DefaultEncoding) as [[m|k|m]|d0];
    simpl; try done.
  all: destruct (csv_content fs csv_name Latin1) as [e'|d']; simpl; done.
Qed.

Lemma load_source_full fs src dfs :
  load_source fs src dfs = (Returns (dfs ++ batch_of fs src), source_events fs src).
Proof.
  rewrite <- (load_source_events fs src dfs), <- load_source_outcome.
  by destruct (load_source fs src dfs).
Qed.

Lemma load_sources_full fs srcs dfs :
  load_sources fs srcs dfs
  = (Returns (dfs ++ flat_map (batch_of fs) srcs), flat_map (source_events fs) srcs).
Proof.
  revert dfs. induction srcs as [|src srcs IH]; intros dfs; simpl.
  - by rewrite app_nil_r.
  - rewrite load_source_full. unfold mbind, M_bind. cbn [fst snd].
    by rewrite IH, <- app_assoc.
Qed.

(** The whole log of [load_and_clean_data]. *)
Lemma load_events fs :
  (load_and_clean_data fs).2 = flat_map (source_events fs) files_to_check.
Proof.
  unfold load_and_clean_data. rewrite load_sources_full.
  unfold mbind, M_bind. cbn [fst snd app]. fold (batches fs).
  case_bool_decide; cbn [snd]; [apply app_nil_r|].
  by rewrite clean_trace, app_nil_r.
Qed.

Lemma notices_app t1 t2 : notices (t1 ++ t2) = notices t1 ++ notices t2.
Proof. unfold notices. apply List.filter_app. Qed.

End source_facts.

Section soft_failure_facts.
Context `{CellText}.

(** A source whose spreadsheet is there but does not read behaves as if
    the spreadsheet were not there, but for the logged attempt. *)
Lemma source_without_failing_spreadsheet fs x e src :
  path_exists fs x = true →
  excel_content fs x = inl e →
  src.2 ≠ x →
  batch_of (without_file x fs) src = batch_of fs src
  ∧ notices (source_events (without_file x fs) src)
    = notices (source_events fs src).
Proof.
  destruct src as [[dept xlsx_name] csv_name]. cbn [snd].
  intros Hex Hfail Hcsv.
  unfold batch_of, raw_batch, source_events, load_source, try_excel, try_csv,
    without_file.
  run_monad.
  rewrite (bool_decide_eq_false_2 _ Hcsv).
  case_bool_decide as Hx.
  - subst xlsx_name. rewrite Hex, Hfail. simpl.
    destruct (path_exists fs csv_name); simpl; [|done].
    destruct (csv_content fs csv_name DefaultEncoding) as [[m|k|m]|d0];
      simpl; try done.
  - done.
Qed.

Lemma batches_without_failing_spreadsheet fs x e srcs :
  path_exists fs x = true →
  excel_content fs x = inl e →
  Forall (λ src, src.2 ≠ x) srcs →
  flat_map (batch_of (without_file x fs)) srcs = flat_map (batch_of fs) srcs
  ∧ notices (flat_map (source_events (without_file x fs)) srcs)
    = notices (flat_map (source_events fs) srcs).
Proof.
  intros Hex Hfail Hsrcs.
  induction Hsrcs as [|src srcs Hsrc _ [IHb IHn]]; [done|].
  destruct (source_without_failing_spreadsheet fs x e src Hex Hfail Hsrc)
    as [Hb Hn].
  cbn [flat_map]. rewrite !notices_app. by rewrite Hb, Hn, IHb, IHn.
Qed.

Lemma csv_names_not_spreadsheets src :
  src ∈ files_to_check → Forall (λ s, s.2 ≠ src.1.2) files_to_check.
Proof.
  unfold files_to_check. intros Hsrc.
  repeat apply elem_of_cons in Hsrc as [->|Hsrc];
    [by repeat constructor..|by apply elem_of_nil in Hsrc].
Qed.

End soft_failure_facts.

Section fallback_facts.
Context `{CellText}.





End fallback_facts.

(* ------------------------------------------------------------------ *)
(** ** Running the normalization again *)

Section idempotence_facts.
Context `{CellText}.

Lemma status_text_ascii s :
  Str.is_ascii s = true → status_text s = cap_low (Str.strip s).
Proof.
  intros Hs. unfold status_text.
  apply capitalize_lower_ascii. by apply is_ascii_strip.
Qed.












End idempotence_facts.

(* ------------------------------------------------------------------ *)
(** ** Where the rows and the labels of the data set come from *)

Section lineage_facts.
Context `{CellText}.

Lemma flat_map_flat_map {A B C} (f : A → list B) (g : B → list C) (l : list A) :
  flat_map g (flat_map f l) = flat_map (λ x, flat_map g (f x)) l.
Proof.
  induction l as [|x l IH]; simpl; [done|]. by rewrite flat_map_app, IH.
Qed.

Lemma flat_map_ext_in {A B} (f g : A → list B) (l : list A) :
  (∀ x, x ∈ l → f x = g x) → flat_map f l = flat_map g l.
Proof.
  induction l as [|x l IH]; intros Hfg; simpl; [done|].
  rewrite Hfg by left. f_equal. apply IH. intros y Hy. apply Hfg. by right.
Qed.

Lemma Forall2_flat_map {A B C} (P : B → C → Prop) (f : A → list B)
    (g : A → list C) (l : list A) :
  (∀ x, x ∈ l → Forall2 P (f x) (g x)) →
  Forall2 P (flat_map f l) (flat_map g l).
Proof.
  induction l as [|x l IH]; intros Hfg; simpl; [constructor|].
  apply Forall2_app; [apply Hfg; by left|].
  apply IH. intros y Hy. apply Hfg. by right.
Qed.

(** Every row of a returned data set is a row read, tagged, laid on the
    labels of the data set and cleaned; the rows keep the reading order. *)
Lemma dataset_rows fs df t :
  load_and_clean_data fs = (Returns df, t) →
  rows df = flat_map (λ src, match raw_batch fs src with
                             | Some d => map (final_row (columns df) src.1.1) (rows d)
                             | None => []
                             end) files_to_check.
Proof.
  intros [Hcols Hrows]%load_returns.
  rewrite Hrows. unfold Frame.concat at 1. cbn [rows].
  assert (Frame.union_labels (batches fs) = columns df) as -> by (by rewrite Hcols).
  unfold batches. rewrite flat_map_flat_map.
  induction files_to_check as [|src srcs IH]; [done|].
  cbn [flat_map]. rewrite map_app, IH. f_equal.
  unfold batch_of. destruct (raw_batch fs src) as [d|]; [|done].
  cbn [flat_map]. rewrite app_nil_r, tag_batch_rows, !map_map. done.
Qed.

Lemma elem_of_tag_batch_columns c dept d :
  c ∈ columns (tag_batch dept d)
  ↔ ∃ c0, (c0 ∈ columns d ∨ c0 = "Department") ∧ Frame.rename_label aliases c0 = c.
Proof.
  unfold tag_batch, Frame.rename, Frame.set_scalar, Frame.set_column.
  cbn [columns]. rewrite list_elem_of_fmap. split.
  - intros (c0 & -> & Hc0). exists c0. split; [|done].
    case_bool_decide; [by left|].
    apply elem_of_app in Hc0 as [Hc0|Hc0]; [by left|].
    apply list_elem_of_singleton in Hc0. by right.
  - intros (c0 & Hc0 & <-). exists c0. split; [done|].
    destruct Hc0 as [Hc0|Hc0].
    + case_bool_decide; [done|]. apply elem_of_app. by left.
    + subst c0. case_bool_decide; [done|]. apply elem_of_app. right. by left.
Qed.

(** The labels of the concatenated batches. *)
Lemma concat_columns fs c :
  c ∈ columns (Frame.concat (batches fs))
  ↔ ∃ src d c0, src ∈ files_to_check ∧ raw_batch fs src = Some d
                ∧ (c0 ∈ columns d ∨ c0 = "Department")
                ∧ Frame.rename_label aliases c0 = c.
Proof.
  unfold Frame.concat.
  cbn [columns]. rewrite elem_of_union_labels. unfold batches. split.
  - intros (b & Hb & Hc). apply elem_of_flat_map in Hb as (src & Hsrc & Hb).
    unfold batch_of in Hb. destruct (raw_batch fs src) as [d|] eqn:Hraw;
      [|by apply elem_of_nil in Hb].
    apply list_elem_of_singleton in Hb as ->.
    apply elem_of_tag_batch_columns in Hc as (c0 & Hc0 & Hren).
    by exists src, d, c0.
  - intros (src & d & c0 & Hsrc & Hraw & Hc0 & Hren).
    exists (tag_batch src.1.1 d). split.
    + apply elem_of_flat_map. exists src. split; [done|].
      unfold batch_of. rewrite Hraw. by left.
    + apply elem_of_tag_batch_columns. by exists c0.
Qed.


Lemma rename_label_cases c :
  Frame.rename_label aliases c = c
  ∨ (c = "Funding agency" ∧ Frame.rename_label aliases c = "Funding Agency")
  ∨ (c = "Co-Investigator" ∧ Frame.rename_label aliases c = "Co-investigator").
Proof.
  unfold aliases. simpl. repeat case_bool_decide; subst; auto.
Qed.





Lemma clean_row_other cols r c :
  c ∉ ["Amount(in lakhs)"; "Status"; "Co-investigator"; "Domain"; "Faculty Name"] →
  clean_row cols r !! c = r !! c.
Proof.
  intros Hc. repeat rewrite not_elem_of_cons in Hc.
  destruct Hc as (?&?&?&?&?&_).
  unfold clean_row, upd_if, upd.
  repeat case_bool_decide;
    repeat (rewrite lookup_insert_ne by done); done.
Qed.

(** A cell that lines 42-74 neither write nor rename is the cell read. *)
Lemma final_row_untouched cols dept r c :
  c ∈ cols → c ∉ touched_labels →
  final_row cols dept r !! c = Some (cell c r).
Proof.
  intros Hin Hc. unfold touched_labels in Hc.
  repeat rewrite not_elem_of_cons in Hc.
  destruct Hc as (?&?&?&?&?&?&?&?&?&_).
  unfold final_row.
  rewrite clean_row_other
    by (repeat rewrite not_elem_of_cons; split_and!; try done; apply not_elem_of_nil).
  rewrite lookup_reindex, bool_decide_eq_true_2 by done.
  unfold cell. rewrite lookup_rename_row_other
    by (repeat rewrite not_elem_of_cons; split_and!; try done; apply not_elem_of_nil).
  by rewrite lookup_insert_ne.
Qed.

Lemma map_flat_map {A B C} (f : B → C) (g : A → list B) (l : list A) :
  map f (flat_map g l) = flat_map (λ x, map f (g x)) l.
Proof.
  induction l as [|x l IH]; simpl; [done|]. by rewrite map_app, IH.
Qed.

Lemma length_flat_map {A B} (g : A → list B) (l : list A) :
  length (flat_map g l) = sum_list (map (λ x, length (g x)) l).
Proof.
  induction l as [|x l IH]; simpl; [done|]. by rewrite length_app, IH.
Qed.

End lineage_facts.

(* ------------------------------------------------------------------ *)
(** ** The log of one source *)

Ltac source_cases fs xlsx_name csv_name :=
  destruct (path_exists fs xlsx_name);
    [destruct (excel_content fs xlsx_name) as [?e|?d]|]; simpl;
  (destruct (path_exists fs csv_name); simpl;
   [destruct (csv_content fs csv_name DefaultEncoding) as [[?m|?k|?m]|?d]; simpl;
    try (destruct (csv_content fs csv_name Latin1) as [?e|?d]; simpl)|]).

Section source_log_facts.
Context `{CellText}.

(** The only CSV file a source reads is its own. *)
Lemma source_events_csv_path fs src p enc :
  ReadCsv p enc ∈ source_events fs src → p = src.2.
Proof.
  destruct src as [[dept xlsx_name] csv_name].
  unfold source_events, load_source, try_excel, try_csv. run_monad.
  source_cases fs xlsx_name csv_name; intros Hin;
    repeat (apply elem_of_cons in Hin as [Hin|Hin];
            [first [discriminate Hin | by injection Hin]|]);
    by apply elem_of_nil in Hin.
Qed.

(** A source is reported as not found exactly when it gives no frame. *)
Lemma source_events_error fs src msg :
  Error msg ∈ source_events fs src
  ↔ raw_batch fs src = None ∧ msg = not_found_message src.
Proof.
  destruct src as [[dept xlsx_name] csv_name].
  unfold source_events, load_source, try_excel, try_csv, raw_batch,
    not_found_message.
  run_monad.
  source_cases fs xlsx_name csv_name; split;
    try (intros Hin;
         repeat (apply elem_of_cons in Hin as [Hin|Hin];
                 [first [discriminate Hin | by injection Hin as <-]|]);
         by apply elem_of_nil in Hin);
    try (by intros [? _]);
    intros [_ ->]; repeat first [by left | right].
Qed.

(** One warning for a CSV file that was tried and gave no frame, none
    otherwise. *)
Lemma source_events_warnings fs src :
  length (List.filter is_warning (source_events fs src))
  = if csv_failed fs src then 1 else 0.
Proof.
  destruct src as [[dept xlsx_name] csv_name].
  unfold source_events, load_source, try_excel, try_csv, csv_failed, csv_tried,
    raw_batch.
  run_monad.
  source_cases fs xlsx_name csv_name; done.
Qed.

(** A spreadsheet that reads is the only file read for its source. *)
Lemma source_events_spreadsheet fs src d :
  path_exists fs src.1.2 = true →
  excel_content fs src.1.2 = inr d →
  raw_batch fs src = Some d ∧ source_events fs src = [ReadExcel src.1.2].
Proof.
  destruct src as [[dept xlsx_name] csv_name]. cbn [fst snd].
  intros Hex Hread.
  unfold source_events, load_source, try_excel, try_csv, raw_batch.
  run_monad. by rewrite Hex, Hread.
Qed.

Lemma csv_names_distinct src src' :
  src ∈ files_to_check → src' ∈ files_to_check → src'.2 = src.2 → src' = src.
Proof.
  unfold files_to_check. intros Hsrc Hsrc'.
  repeat apply elem_of_cons in Hsrc as [->|Hsrc];
    repeat apply elem_of_cons in Hsrc' as [->|Hsrc'];
    try done; by apply elem_of_nil in Hsrc || by apply elem_of_nil in Hsrc'.
Qed.

Lemma not_found_messages_distinct src src' :
  src ∈ files_to_check → src' ∈ files_to_check →
  not_found_message src' = not_found_message src → src' = src.
Proof.
  unfold files_to_check. intros Hsrc Hsrc'.
  repeat apply elem_of_cons in Hsrc as [->|Hsrc];
    repeat apply elem_of_cons in Hsrc' as [->|Hsrc'];
    try done; by apply elem_of_nil in Hsrc || by apply elem_of_nil in Hsrc'.
Qed.

End source_log_facts.

(* ------------------------------------------------------------------ *)
(** ** The shape of a status text, and the rows of one department *)

Section shape_facts.
Context `{CellText}.

Lemma is_upper_low1 c : is_upper (low1 c) = false.
Proof.
  unfold is_upper, low1.
  destruct (N.leb_spec 65 c), (N.leb_spec c 90); simpl;
    apply andb_false_iff; rewrite !N.leb_gt; lia.
Qed.

Lemma is_lower_up1 c : is_lower (up1 c) = false.
Proof.
  unfold is_lower, up1.
  destruct (N.leb_spec 97 c), (N.leb_spec c 122); simpl;
    apply andb_false_iff; rewrite !N.leb_gt; lia.
Qed.

Lemma strip_cap_low_strip s :
  Str.strip (cap_low (Str.strip s)) = cap_low (Str.strip s).
Proof.
  destruct (strip_ends s) as [Hl Hr].
  by apply (strip_same_spaces (Str.strip s)); [apply same_spaces_cap_low|..].
Qed.

Lemma final_row_department cols dept r :
  "Department" ∈ cols →
  final_row cols dept r !! "Department" = Some (VStr (py dept)).
Proof.
  intros Hin. unfold final_row.
  rewrite clean_row_department, lookup_reindex, bool_decide_eq_true_2 by done.
  unfold cell. rewrite lookup_rename_row_other
    by (repeat rewrite not_elem_of_cons; split_and!; try done; apply not_elem_of_nil).
  by rewrite lookup_insert_eq.
Qed.

Lemma filter_map_all {A B} (p : B → bool) (f : A → B) (l : list A) :
  (∀ x, p (f x) = true) → List.filter p (map f l) = map f l.
Proof.
  intros Hp. induction l as [|x l IH]; simpl; [done|]. by rewrite Hp, IH.
Qed.

Lemma filter_map_none {A B} (p : B → bool) (f : A → B) (l : list A) :
  (∀ x, p (f x) = false) → List.filter p (map f l) = [].
Proof.
  intros Hp. induction l as [|x l IH]; simpl; [done|]. by rewrite Hp, IH.
Qed.

(** The department filter on the rows of one source: all of them for the
    department of the source, none for another department. *)
Lemma keeps_final_row df cols dept dept' r :
  "Department" ∈ cols →
  py dept ≠ py "All" →
  keeps df (py dept) (py "All") (final_row cols dept' r)
  = bool_decide (py dept' = py dept).
Proof.
  intros Hin Hne. unfold keeps, text_at, cell.
  rewrite final_row_department by done. simpl.
  rewrite (bool_decide_eq_false_2 _ Hne). simpl.
  by rewrite andb_true_r.
Qed.

End shape_facts.

(* ------------------------------------------------------------------ *)
(** ** A run of [main] *)

Section main_facts.
Context `{CellText}.

Lemma chart_if_spec c heading title df_filtered :
  chart_if c heading title df_filtered
  = (Returns (), chart_section (columns df_filtered) c heading title).
Proof.
  unfold chart_if, chart_section. rewrite bind_emit.
  by case_bool_decide.
Qed.

Lemma bind_eq {A B} (m : M A) (f : A → M B) a t r t' :
  m = (Returns a, t) → f a = (r, t') → (m ≫= f) = (r, t ++ t').
Proof. intros -> Hf. unfold mbind, M_bind. cbn [fst snd]. by rewrite Hf. Qed.

Lemma emit_eq {B} (e : event) (k : M B) r t' :
  k = (r, t') → (emit e ;; k) = (r, e :: t').
Proof. intros ->. done. Qed.

(** On a data set that is not empty, [main] runs to its end. *)
Lemma main_run fs df t dept_choice status_choice :
  load_and_clean_data fs = (Returns df, t) →
  is_empty df = false →
  main fs dept_choice status_choice
  = (Returns (),
     Title "🎓 Faculty Research & Development Dashboard"
     :: Markdown "Visualizing research grants, domains, and progress across departments."
     :: t ++ page_events df dept_choice status_choice).
Proof.
  intros Hload Hne.
  pose proof (load_department_label _ _ _ Hload Hne) as Hd.
  pose proof (load_amount_label _ _ _ Hload Hne) as Ha.
  unfold main. do 2 apply emit_eq.
  apply (bind_eq _ _ df t); [done|].
  rewrite Hne, bind_mret. unfold page_events. cbn [app].
  do 2 apply emit_eq.
  apply (bind_eq _ _ (status_in_use df status_choice)).
  { unfold status_in_use. by case_bool_decide. }
  rewrite filter_rows_spec, bind_mret by done.
  fold (filtered df dept_choice status_choice).
  rewrite summarize_spec by done.
  fold (summary_of df (filtered df dept_choice status_choice)).
  rewrite bind_mret. cbn [total_funding total_projects unique_faculty avg_funding].
  do 5 apply emit_eq.
  do 3 (eapply bind_eq;
        [exact (chart_if_spec _ _ _ (filtered df dept_choice status_choice))|]).
  exact (chart_if_spec _ _ _ (filtered df dept_choice status_choice)).
Qed.

End main_facts.

Section page_facts.
Context `{CellText}.



Lemma main_stops fs df t dept_choice status_choice :
  load_and_clean_data fs = (Returns df, t) →
  is_empty df = true →
  main fs dept_choice status_choice
  = (Stops,
     Title "🎓 Faculty Research & Development Dashboard"
     :: Markdown "Visualizing research grants, domains, and progress across departments."
     :: t ++ [Warning "Dashboard failed to load data. Please check your data files and names."]).
Proof.
  intros Hload Hemp. unfold main. do 2 apply emit_eq.
  apply (bind_eq _ _ df t); [done|]. by rewrite Hemp.
Qed.

Lemma main_raises fs e dept_choice status_choice :
  (load_and_clean_data fs).1 = Raises e →
  main fs dept_choice status_choice
  = (Raises e,
     Title "🎓 Faculty Research & Development Dashboard"
     :: Markdown "Visualizing research grants, domains, and progress across departments."
     :: (load_and_clean_data fs).2).
Proof.
  intros Hload. unfold main. do 2 apply emit_eq.
  by rewrite (bind_raises _ _ e Hload).
Qed.

(** In a data set, the filtered [Faculty Name] cells are not missing. *)
Lemma faculty_cells_not_missing fs df t dept_choice status_choice :
  load_and_clean_data fs = (Returns df, t) →
  "Faculty Name" ∈ columns df →
  Forall (λ v, Ser.isna v = false)
         (Frame.column "Faculty Name" (filtered df dept_choice status_choice)).
Proof.
  intros [_ Hrows]%load_returns Hf.
  unfold Frame.column, filtered. cbn [rows]. rewrite Forall_map.
  apply Forall_forall. intros r Hr.
  apply list_elem_of_In, filter_In in Hr as [Hr _].
  rewrite Hrows in Hr. apply in_map_iff in Hr as (r0 & <- & _).
  unfold cell. rewrite clean_row_faculty by done. simpl.
  by apply fill_cell_notna.
Qed.

Lemma length_distinct_le s : length (distinct s) ≤ length s.
Proof.
  induction s as [|v s IH]; simpl; [done|].
  pose proof (List.filter_length_le (λ w, negb (value_eqb v w)) (distinct s)).
  lia.
Qed.

Lemma nunique_le s : nunique s ≤ length s.
Proof.
  unfold nunique.
  pose proof (length_distinct_le (List.filter (λ v, negb (Ser.isna v)) s)).
  pose proof (List.filter_length_le (λ v, negb (Ser.isna v)) s). lia.
Qed.

Lemma nunique_pos s :
  Forall (λ v, Ser.isna v = false) s → s ≠ [] → 1 ≤ nunique s.
Proof.
  intros Hs Hne. unfold nunique.
  destruct s as [|v s]; [done|]. simpl.
  apply Forall_cons in Hs as [Hv _]. rewrite Hv. simpl. lia.
Qed.

End page_facts.

(* ------------------------------------------------------------------ *)
(** ** The department select box *)

Section options_facts.
Context `{CellText}.

Lemma department_lookups fs df t :
  load_and_clean_data fs = (Returns df, t) →
  map (λ r, r !! "Department") (rows df)
  = map (λ dept, Some (VStr (py dept))) (provenance fs).
Proof.
  intros [Hcols Hrows]%load_returns.
  rewrite Hrows, map_map. apply department_of_batches.
  intros d Hd. apply elem_of_union_labels. exists d. split; [done|].
  apply elem_of_flat_map in Hd as (src & _ & Hd). unfold batch_of in Hd.
  destruct (raw_batch fs src); [|by apply elem_of_nil in Hd].
  apply list_elem_of_singleton in Hd as ->. apply tag_batch_department_label.
Qed.

Lemma department_column fs df t :
  load_and_clean_data fs = (Returns df, t) →
  Frame.column "Department" df = map VStr (map py (provenance fs)).
Proof.
  intros Hload. pose proof (department_lookups _ _ _ Hload) as Hlook.
  unfold Frame.column, cell. rewrite map_map.
  rewrite <- (map_map (λ r : Row, r !! "Department") (default VNull)), Hlook.
  by rewrite map_map.
Qed.

Lemma filter_negb_twice {A} (p : A → bool) (l : list A) :
  List.filter p (List.filter p l) = List.filter p l.
Proof.
  induction l as [|x l IH]; simpl; [done|].
  destruct (p x) eqn:E; simpl; [by rewrite E, IH|done].
Qed.

Lemma unique_replicate_app x n l :
  Text.unique (replicate (S n) x ++ l)
  = x :: List.filter (λ y, negb (bool_decide (y = x))) (Text.unique l).
Proof.
  induction n as [|n IH]; [done|].
  change (replicate (S (S n)) x ++ l) with (x :: (replicate (S n) x ++ l)).
  cbn [Text.unique]. rewrite IH. cbn [List.filter].
  rewrite bool_decide_eq_true_2 by done. cbn [negb].
  by rewrite filter_negb_twice.
Qed.

Lemma provenance_blocks fs :
  provenance fs
  = flat_map (λ src, replicate (batch_rows fs src) src.1.1) files_to_check.
Proof.
  unfold provenance, batch_rows. apply flat_map_ext_in. intros src _.
  by destruct (raw_batch fs src).
Qed.

End options_facts.

(* ------------------------------------------------------------------ *)
(** ** The detail table *)

Section table_facts.
Context `{CellText} `{TextSearch}.

Lemma getitem_list_present cols df :
  (∀ c, c ∈ cols → c ∈ columns df) →
  getitem_list cols df
  = mret {| columns := cols; rows := map (Frame.reindex cols) (rows df) |}.
Proof.
  intros Hall. unfold getitem_list.
  assert (List.filter (λ c, negb (bool_decide (c ∈ columns df))) cols = []) as ->;
    [|done].
  induction cols as [|c cols IH]; simpl; [done|].
  rewrite bool_decide_eq_true_2 by (apply Hall; left). simpl.
  apply IH. intros c' Hc'. apply Hall. by right.
Qed.

Lemma getitem_shown df : getitem_list (shown_columns df) df = mret (table_of df).
Proof.
  apply getitem_list_present. intros c Hc. unfold shown_columns in Hc.
  apply list_elem_of_In, filter_In in Hc as [_ Hc].
  by apply bool_decide_eq_true_1 in Hc.
Qed.

Lemma str_contains_found pat found s :
  compile_ignorecase pat = inr found →
  str_contains pat (Ser.astype_str s)
  = mret (map (λ v, found (Ser.str_of_cell v)) s).
Proof.
  intros Hc. unfold str_contains, Ser.astype_str. rewrite Hc.
  by rewrite map_map.
Qed.

Lemma str_contains_raises pat e s :
  compile_ignorecase pat = inl e → str_contains pat s = raise e.
Proof. intros Hc. unfold str_contains. by rewrite Hc. Qed.

Lemma zip_with_map_map {A B C D} (g : B → C → D) (f1 : A → B) (f2 : A → C)
    (l : list A) :
  zip_with g (map f1 l) (map f2 l) = map (λ x, g (f1 x) (f2 x)) l.
Proof. induction l as [|x l IH]; simpl; [done|]. by rewrite IH. Qed.

(** The rows kept by a search whose pattern compiles. *)
Lemma search_mask df pat found :
  "Title" ∈ columns df →
  compile_ignorecase pat = inr found →
  (title ← getitem "Title" df;
   mask ← str_contains pat (Ser.astype_str title);
   mask ← (if bool_decide ("Faculty Name" ∈ columns df) then
             faculty ← getitem "Faculty Name" df;
             by_faculty ← str_contains pat (Ser.astype_str faculty);
             mret (zip_with orb mask by_faculty)
           else mret mask);
   mret (Frame.select mask df))
  = mret {| columns := columns df;
            rows := List.filter (row_found found df) (rows df) |}.
Proof.
  intros Ht Hc.
  rewrite (getitem_present "Title"), bind_mret by done.
  rewrite (str_contains_found _ _ _ Hc), bind_mret.
  unfold row_found. case_bool_decide as Hf.
  - rewrite (getitem_present "Faculty Name"), bind_mret by done.
    rewrite (str_contains_found _ _ _ Hc), !bind_mret.
    unfold Frame.select, Frame.column. rewrite !map_map.
    rewrite (zip_with_map_map orb), keep_map_mask. done.
  - rewrite !bind_mret. unfold Frame.select, Frame.column.
    rewrite map_map, keep_map_mask. do 2 f_equal.
    apply filter_ext_bool. intros r. by rewrite orb_false_r.
Qed.

(** A data set has a title column when a frame read has one. *)
Lemma title_in_dataset fs df t :
  load_and_clean_data fs = (Returns df, t) →
  "Title" ∈ columns df
  ↔ ∃ src d, src ∈ files_to_check ∧ raw_batch fs src = Some d
             ∧ "Title" ∈ columns d.
Proof.
  intros [Hcols _]%load_returns. rewrite Hcols, concat_columns. split.
  - intros (src & d & c0 & Hsrc & Hraw & Hc0 & Hren).
    exists src, d. split_and!; [done..|].
    destruct (rename_label_cases c0) as [Hc|[[-> Hc]|[-> Hc]]];
      rewrite Hc in Hren; try done.
    subst c0. by destruct Hc0.
  - intros (src & d & Hsrc & Hraw & Hin).
    exists src, d, "Title". split_and!; [done|done|by left|done].
Qed.

End table_facts.

(* ------------------------------------------------------------------ *)
(** ** Sorting texts *)

Section sorting_facts.

Lemma ltb_irrefl s : Text.ltb s s = false.
Proof.
  induction s as [|a s IH]; simpl; [done|].
  by rewrite N.ltb_irrefl, IH.
Qed.

Lemma ltb_asym s t : Text.ltb s t = true → Text.ltb t s = false.
Proof.
  revert t. induction s as [|a s IH]; intros [|b t]; simpl; try done.
  destruct (N.ltb_spec a b), (N.ltb_spec b a); try done; try lia.
  apply IH.
Qed.

Lemma ltb_total s t : Text.ltb s t = false → Text.ltb t s = false → s = t.
Proof.
  revert t. induction s as [|a s IH]; intros [|b t]; simpl; try done.
  destruct (N.ltb_spec a b), (N.ltb_spec b a); try done.
  intros Hst Hts. assert (a = b) as -> by lia. f_equal. by apply IH.
Qed.

Lemma insert_perm x l : Text.insert x l ≡ₚ x :: l.
Proof.
  induction l as [|y l IH]; simpl; [done|].
  destruct (Text.ltb x y); [done|]. rewrite IH. apply Permutation_swap.
Qed.

Lemma sorted_perm_from acc l :
  foldl (λ acc x, Text.insert x acc) acc l ≡ₚ acc ++ l.
Proof.
  revert acc. induction l as [|x l IH]; intros acc; simpl.
  - by rewrite app_nil_r.
  - rewrite IH, insert_perm. simpl. apply Permutation_middle.
Qed.

Lemma sorted_perm l : Text.sorted l ≡ₚ l.
Proof. apply (sorted_perm_from [] l). Qed.

Lemma insert_sorted x l :
  Sorted in_order l → Sorted in_order (Text.insert x l).
Proof.
  induction 1 as [|y l Hl IH Hy]; simpl.
  - repeat constructor.
  - destruct (Text.ltb x y) eqn:E.
    + constructor; [by constructor|]. constructor. by apply ltb_asym.
    + constructor; [done|].
      destruct Hy as [|z l Hz]; simpl.
      * constructor. exact E.
      * destruct (Text.ltb x z); constructor; [exact E|exact Hz].
Qed.

Lemma sorted_from_sorted acc l :
  Sorted in_order acc →
  Sorted in_order (foldl (λ acc x, Text.insert x acc) acc l).
Proof.
  revert acc. induction l as [|x l IH]; intros acc Hacc; simpl; [done|].
  by apply IH, insert_sorted.
Qed.

Lemma sorted_sorted l : Sorted in_order (Text.sorted l).
Proof. apply sorted_from_sorted. constructor. Qed.

Lemma elem_of_filter_bool {A} (p : A → bool) (l : list A) x :
  x ∈ List.filter p l ↔ x ∈ l ∧ p x = true.
Proof. rewrite !list_elem_of_In. apply filter_In. Qed.

Lemma elem_of_unique x l : x ∈ Text.unique l ↔ x ∈ l.
Proof.
  induction l as [|y l IH]; simpl; [done|].
  rewrite !elem_of_cons, elem_of_filter_bool, IH.
  destruct (decide (x = y)) as [->|Hne]; [tauto|].
  rewrite bool_decide_eq_false_2 by done. simpl. tauto.
Qed.

Lemma NoDup_filter_bool {A} (p : A → bool) (l : list A) :
  NoDup l → NoDup (List.filter p l).
Proof.
  induction 1 as [|x l Hx Hl IH]; simpl; [constructor|].
  destruct (p x); [|done]. constructor; [|done].
  rewrite elem_of_filter_bool. tauto.
Qed.

Lemma NoDup_unique l : NoDup (Text.unique l).
Proof.
  induction l as [|y l IH]; simpl; constructor.
  - rewrite elem_of_filter_bool. intros [_ Hy].
    by rewrite bool_decide_eq_true_2 in Hy.
  - by apply NoDup_filter_bool.
Qed.

(** In a sorted list without repetition, neighbours are strictly ordered. *)
Lemma sorted_strict l :
  NoDup l → Sorted in_order l → Sorted (λ s t, Text.ltb s t = true) l.
Proof.
  induction 1 as [|x l Hx Hl IH]; intros Hs; [constructor|].
  apply Sorted_inv in Hs as [Hs Hhd]. constructor; [by apply IH|].
  destruct Hhd as [|y l' Hxy]; constructor.
  destruct (Text.ltb x y) eqn:E; [done|]. exfalso. apply Hx.
  rewrite (ltb_total x y E Hxy). left.
Qed.

End sorting_facts.

Section status_options_facts.
Context `{CellText}.

Lemma status_column fs df t :
  load_and_clean_data fs = (Returns df, t) →
  "Status" ∈ columns df →
  Frame.column "Status" df
  = map VStr (map (λ r, status_text (Ser.str_of_cell (cell "Status" r)))
                  (rows (Frame.concat (batches fs)))).
Proof.
  intros [_ Hrows]%load_returns Hs. unfold Frame.column.
  rewrite Hrows, !map_map. apply map_ext. intros r.
  unfold cell at 1. by rewrite clean_row_status.
Qed.

Lemma status_in_dataset fs df t :
  load_and_clean_data fs = (Returns df, t) →
  "Status" ∈ columns df
  ↔ ∃ src d, src ∈ files_to_check ∧ raw_batch fs src = Some d
             ∧ "Status" ∈ columns d.
Proof.
  intros [Hcols _]%load_returns. rewrite Hcols, concat_columns. split.
  - intros (src & d & c0 & Hsrc & Hraw & Hc0 & Hren).
    exists src, d. split_and!; [done..|].
    destruct (rename_label_cases c0) as [Hc|[[-> Hc]|[-> Hc]]];
      rewrite Hc in Hren; try done.
    subst c0. by destruct Hc0.
  - intros (src & d & Hsrc & Hraw & Hin).
    exists src, d, "Status". split_and!; [done|done|by left|done].
Qed.

Lemma load_never_stops fs t : load_and_clean_data fs ≠ (Stops, t).
Proof.
  intros Hload. pose proof (load_outcome fs) as Hout.
  rewrite Hload in Hout. cbn [fst] in Hout.
  by repeat case_bool_decide.
Qed.

End status_options_facts.

(* ------------------------------------------------------------------ *)
(** ** The claims *)

Section scenario.
#[local] Existing Instance Example.decimal_text.

(** The scenario of the specification, run. *)
Example scenario_dataset :
  load_and_clean_data Example.fs = (Returns Example.dataset, Example.trace).
Proof. vm_compute. reflexivity. Qed.

End scenario.

Section invariants.
Context `{CellText}.



(** C9. In a returned data set the [Department] cells are, row by row,
    the tag of the source the row was read from; and each of the columns
    [Co-investigator], [Domain], [Faculty Name] that is present holds no
    missing cell: a missing cell of the sources is replaced by the
    sentinel of the column, any other cell is kept. *)
Theorem department_and_sentinels fs df t :
  load_and_clean_data fs = (Returns df, t) →
  map (λ r, r !! "Department") (rows df)
  = map (λ dept, Some (VStr (py dept))) (provenance fs)
  ∧ ∀ c sentinel,
      (c, sentinel) ∈ [("Co-investigator", "None"); ("Domain", "Unspecified");
                       ("Faculty Name", "Unknown")] →
      c ∈ columns df →
      Forall2 (λ r_in r_out,
                 ∃ v, r_out !! c = Some v
                      ∧ Ser.isna v = false
                      ∧ v = if Ser.isna (cell c r_in) then VStr (py sentinel)
                            else cell c r_in)
              (rows (Frame.concat (batches fs))) (rows df).
Proof.
  intros [Hcols Hrows]%load_returns. split.
  - rewrite Hrows, map_map. apply department_of_batches.
    intros d Hd. apply elem_of_union_labels. exists d. split; [done|].
    apply elem_of_flat_map in Hd as (src & _ & Hd). unfold batch_of in Hd.
    destruct (raw_batch fs src); [|by apply elem_of_nil in Hd].
    apply list_elem_of_singleton in Hd as ->. apply tag_batch_department_label.
  - intros c sentinel Hc Hin. rewrite Hrows.
    apply Forall2_map_same. intros r _.
    exists (Ser.fill_cell (VStr (py sentinel)) (cell c r)).
    split_and!; [|by apply fill_cell_notna|done].
    repeat apply elem_of_cons in Hc as [[= -> ->]|Hc];
      [by apply clean_row_coinvestigator|by apply clean_row_domain
      |by apply clean_row_faculty|by apply elem_of_nil in Hc].
Qed.

End invariants.

Section invariants_witnesses.
#[local] Existing Instance Example.decimal_text.



Lemma department_and_sentinels_witness :
  map (λ r, r !! "Department") (rows Example.dataset)
  = map (λ dept, Some (VStr (py dept))) (provenance Example.fs).
Proof.
  apply (department_and_sentinels Example.fs Example.dataset Example.trace).
  vm_compute. reflexivity.
Defined.

End invariants_witnesses.

Section escaping_exception.
Context `{CellText}.

(** [load_and_clean_data] ends in one of three ways: the empty frame when
    no source could be read, the cleaned data set, or a [KeyError] on the
    amount column when no batch read has it. *)
Lemma load_ends fs :
  (load_and_clean_data fs).1 = Returns empty_frame
  ∨ (∃ df, (load_and_clean_data fs).1 = Returns df
           ∧ "Amount(in lakhs)" ∈ columns df)
  ∨ ((load_and_clean_data fs).1 = Raises (KeyError "Amount(in lakhs)")
     ∧ batches fs ≠ []
     ∧ ∀ d, d ∈ batches fs → "Amount(in lakhs)" ∉ columns d).
Proof.
  rewrite load_outcome. case_bool_decide as Hb; [by left|right].
  case_bool_decide as Ha; [left; by eexists|right].
  split_and!; [done..|]. intros d Hd Hin. apply Ha.
  apply elem_of_union_labels. by exists d.
Qed.

(** C1, at the failing input: the CSE spreadsheet reads but has no
    [Amount(in lakhs)] column and nothing else is on disk; line 57 raises
    [KeyError] and the exception leaves [load_and_clean_data]. *)
Theorem load_raises_without_amount :
  load_and_clean_data Example.fs_no_amount
  = (Raises (KeyError "Amount(in lakhs)"),
     [ReadExcel "CSEDATA.xlsx";
      Error "⚠️ Could not find readable data for ECE. Ensure 'ECEDATA.xlsx' or 'ECEDATA.xlsx - Sheet1.csv' is in the project folder."]).
Proof. vm_compute. reflexivity. Qed.

End escaping_exception.

Section all_sources_fail.
Context `{CellText}.

(** C6. When no source gives a batch, [load_and_clean_data] returns the
    empty frame, and [main] shows its warning and stops: its trace is the
    title, the introduction, the loader's trace and the warning, and holds
    no chart and no metric. *)
Theorem all_sources_fail_halts fs dept_choice status_choice :
  (∀ src, src ∈ files_to_check → raw_batch fs src = None) →
  (load_and_clean_data fs).1 = Returns empty_frame
  ∧ main fs dept_choice status_choice
    = (Stops,
       Title "🎓 Faculty Research & Development Dashboard"
       :: Markdown "Visualizing research grants, domains, and progress across departments."
       :: (load_and_clean_data fs).2
       ++ [Warning "Dashboard failed to load data. Please check your data files and names."])
  ∧ ∀ e, e ∈ (main fs dept_choice status_choice).2 →
         match e with PlotlyChart _ | Metric _ _ => False | _ => True end.
Proof.
  intros Hnone.
  assert ((load_and_clean_data fs).1 = Returns empty_frame) as Hload.
  { rewrite load_outcome, bool_decide_eq_true_2; [done|].
    unfold batches, files_to_check. cbn [flat_map]. unfold batch_of.
    rewrite !Hnone; [done|..]; unfold files_to_check;
      repeat first [by left | right]. }
  assert (main fs dept_choice status_choice
    = (Stops,
       Title "🎓 Faculty Research & Development Dashboard"
       :: Markdown "Visualizing research grants, domains, and progress across departments."
       :: (load_and_clean_data fs).2
       ++ [Warning "Dashboard failed to load data. Please check your data files and names."]))
    as Hmain.
  { unfold main. rewrite !bind_emit.
    by rewrite (bind_returns _ _ _ Hload). }
  split_and!; [done..|].
  rewrite Hmain. cbn [snd]. intros e He.
  repeat apply elem_of_cons in He as [->|He]; try done.
  apply elem_of_app in He as [He|He].
  - pose proof (load_trace fs) as Ht.
    rewrite Forall_forall in Ht. specialize (Ht e He). by destruct e.
  - by apply list_elem_of_singleton in He as ->.
Qed.

End all_sources_fail.

Section all_sources_fail_witness.
#[local] Existing Instance Example.decimal_text.

Lemma all_sources_fail_halts_witness :
  (load_and_clean_data Example.fs_nothing).1 = Returns empty_frame.
Proof.
  apply (all_sources_fail_halts Example.fs_nothing (py "All") (py "All")).
  intros src Hsrc. unfold files_to_check in Hsrc.
  repeat apply elem_of_cons in Hsrc as [->|Hsrc]; [reflexivity..|].
  by apply elem_of_nil in Hsrc.
Defined.

End all_sources_fail_witness.

Section filter_and_summary.
Context `{CellText}.

(** C7. On a data set that is not empty, the filters of [main] return the
    frame with the same labels whose rows are those that [keeps] keeps: a
    department choice other than [All] keeps the rows whose [Department]
    is the choice, a status choice other than [All] keeps the rows whose
    [Status] is the choice when there is a [Status] column; with both
    choices [All] the frame is returned as it is. *)
Theorem filters_keep_matching_rows fs df t selected_dept selected_status :
  load_and_clean_data fs = (Returns df, t) →
  is_empty df = false →
  filter_rows df selected_dept selected_status
  = mret {| columns := columns df;
            rows := List.filter (keeps df selected_dept selected_status) (rows df) |}
  ∧ filter_rows df (py "All") (py "All") = mret df.
Proof.
  intros Hload Hne.
  pose proof (load_department_label _ _ _ Hload Hne) as Hd.
  split; [by apply filter_rows_spec|].
  rewrite filter_rows_spec by done.
  rewrite filter_true by done. by destruct df.
Qed.


End filter_and_summary.

Section filter_and_summary_witnesses.
#[local] Existing Instance Example.decimal_text.

(** The filter scenario of the specification: department [CSE], any
    status, keeps the CSE row alone; the total is [10.0] for one project. *)
Example scenario_filter :
  filter_rows Example.dataset (py "CSE") (py "All")
  = mret {| columns := columns Example.dataset;
            rows := take 1 (rows Example.dataset) |}
  ∧ summarize Example.dataset
      {| columns := columns Example.dataset;
         rows := take 1 (rows Example.dataset) |}
    = mret {| total_funding := 10; total_projects := 1;
              unique_faculty := 0; avg_funding := 10 |}.
Proof. split; vm_compute; reflexivity. Qed.

Lemma filters_keep_matching_rows_witness :
  filter_rows Example.dataset (py "CSE") (py "All")
  = mret {| columns := columns Example.dataset;
            rows := List.filter (keeps Example.dataset (py "CSE") (py "All"))
                      (rows Example.dataset) |}.
Proof.
  apply (filters_keep_matching_rows Example.fs Example.dataset Example.trace).
  - vm_compute. reflexivity.
  - reflexivity.
Defined.


End filter_and_summary_witnesses.

Section soft_failures.
Context `{CellText}.

(** C4. For a source whose spreadsheet is there but does not read, the
    spreadsheet attempt gives no batch and raises nothing, and
    [load_and_clean_data] ends as it does on the file system without that
    spreadsheet, with the same messages: the CSV file of the source is
    tried and the other sources are loaded. *)
Theorem failing_spreadsheet_is_skipped fs src e :
  src ∈ files_to_check →
  path_exists fs src.1.2 = true →
  excel_content fs src.1.2 = inl e →
  try_excel fs src.1.2 = (Returns None, [ReadExcel src.1.2])
  ∧ (load_and_clean_data fs).1
    = (load_and_clean_data (without_file src.1.2 fs)).1
  ∧ notices (load_and_clean_data fs).2
    = notices (load_and_clean_data (without_file src.1.2 fs)).2.
Proof.
  intros Hsrc Hex Hfail.
  destruct (batches_without_failing_spreadsheet fs src.1.2 e files_to_check
              Hex Hfail (csv_names_not_spreadsheets src Hsrc)) as [Hb Hn].
  split_and!.
  - unfold try_excel. rewrite Hex. run_monad. by rewrite Hfail.
  - rewrite !load_outcome. unfold batches. by rewrite Hb.
  - by rewrite !load_events.
Qed.

End soft_failures.

Section soft_failures_witness.
#[local] Existing Instance Example.decimal_text.

Lemma failing_spreadsheet_is_skipped_witness :
  try_excel Example.fs_bad_spreadsheet "CSEDATA.xlsx"
  = (Returns None, [ReadExcel "CSEDATA.xlsx"])
  ∧ (load_and_clean_data Example.fs_bad_spreadsheet).1
    = (load_and_clean_data
         (without_file "CSEDATA.xlsx" Example.fs_bad_spreadsheet)).1
  ∧ notices (load_and_clean_data Example.fs_bad_spreadsheet).2
    = notices (load_and_clean_data
                 (without_file "CSEDATA.xlsx" Example.fs_bad_spreadsheet)).2.
Proof.
  apply (failing_spreadsheet_is_skipped Example.fs_bad_spreadsheet
           ("CSE", "CSEDATA.xlsx", "CSEDATA.xlsx - Sheet1.csv")
           (OtherError "File is not a zip file")).
  - unfold files_to_check. left.
  - reflexivity.
  - reflexivity.
Defined.

End soft_failures_witness.

Section csv_fallback.
Context `{CellText}.


End csv_fallback.

Section csv_fallback_witness.
#[local] Existing Instance Example.decimal_text.


(** The other branch: a CSV file that is not a table. *)
Example csv_other_failure :
  load_and_clean_data Example.fs_bad_csv
  = (Returns empty_frame,
     [Error "⚠️ Could not find readable data for CSE. Ensure 'CSEDATA.xlsx' or 'CSEDATA.xlsx - Sheet1.csv' is in the project folder.";
      ReadCsv "ECEDATA.xlsx - Sheet1.csv" DefaultEncoding;
      Warning "Found ECEDATA.xlsx - Sheet1.csv but couldn't read it: Error tokenizing data";
      Error "⚠️ Could not find readable data for ECE. Ensure 'ECEDATA.xlsx' or 'ECEDATA.xlsx - Sheet1.csv' is in the project folder."]).
Proof. vm_compute. reflexivity. Qed.

End csv_fallback_witness.

Section idempotence.
Context `{CellText}.


End idempotence.

Section idempotence_witnesses.
#[local] Existing Instance Example.decimal_text.

(** The example of the specification: COMPLETED, Completed, Completed. *)
Example status_casing_completed :
  status_series [VStr (py "COMPLETED")] = [VStr (py "Completed")]
  ∧ status_series [VStr (py "Completed")] = [VStr (py "Completed")].
Proof. split; vm_compute; reflexivity. Qed.



End idempotence_witnesses.

(* ------------------------------------------------------------------ *)
(** ** Further properties of the loader *)

Section loader_extras.
Context `{CellText}.


End loader_extras.

Section dataset_extras.
Context `{CellText}.

(** X2. A returned data set has one row per row read: its number of rows
    is the sum, over the sources, of the rows of the frame read for each;
    nothing is dropped or merged. *)
Theorem dataset_row_count fs df t :
  load_and_clean_data fs = (Returns df, t) →
  nrows df = sum_list (map (batch_rows fs) files_to_check)
  ∧ nrows df = length (rows_read fs).
Proof.
  intros Hload. unfold nrows, rows_read.
  rewrite (dataset_rows _ _ _ Hload), !length_flat_map.
  assert (map (λ src, length match raw_batch fs src with
                             | Some d => map (final_row (columns df) src.1.1) (rows d)
                             | None => []
                             end) files_to_check
          = map (batch_rows fs) files_to_check) as ->.
  { apply map_ext. intros src. unfold batch_rows, nrows.
    destruct (raw_batch fs src); [apply length_map|done]. }
  split; [done|]. f_equal. apply map_ext. intros src.
  unfold batch_rows, nrows. by destruct (raw_batch fs src).
Qed.


(** X4. A column of the data set that lines 42-74 neither write nor
    rename holds, row by row, the cells that were read (NaN where the
    frame read has no such column). *)
Theorem untouched_columns_pass_through fs df t c :
  load_and_clean_data fs = (Returns df, t) →
  c ∈ columns df →
  c ∉ touched_labels →
  map (λ r, r !! c) (rows df) = map (λ r, Some (cell c r)) (rows_read fs).
Proof.
  intros Hload Hin Hc. unfold rows_read.
  rewrite (dataset_rows _ _ _ Hload), !map_flat_map.
  apply flat_map_ext_in. intros src _.
  destruct (raw_batch fs src) as [d|]; [|done].
  rewrite map_map. apply map_ext. intros r.
  by apply final_row_untouched.
Qed.

End dataset_extras.

Section log_extras.
Context `{CellText}.

(** X5. When the spreadsheet of a source is there and reads, it is the
    frame of the source, nothing else is logged for the source, and the CSV
    file of the source is never read. *)
Theorem spreadsheet_comes_first fs src d :
  src ∈ files_to_check →
  path_exists fs src.1.2 = true →
  excel_content fs src.1.2 = inr d →
  raw_batch fs src = Some d
  ∧ source_events fs src = [ReadExcel src.1.2]
  ∧ ∀ enc, ReadCsv src.2 enc ∉ (load_and_clean_data fs).2.
Proof.
  intros Hsrc Hex Hread.
  destruct (source_events_spreadsheet fs src d Hex Hread) as [Hraw Hev].
  split_and!; [done..|].
  intros enc Hin. rewrite load_events in Hin.
  apply elem_of_flat_map in Hin as (src' & Hsrc' & Hin).
  pose proof (source_events_csv_path _ _ _ _ Hin) as Hp.
  symmetry in Hp. apply (csv_names_distinct src src' Hsrc Hsrc') in Hp.
  subst src'. rewrite Hev in Hin.
  apply list_elem_of_singleton in Hin. discriminate Hin.
Qed.

(** X6. The "could not find readable data" error of a source is shown
    exactly when the source gives no frame. *)
Theorem not_found_reported_iff fs src :
  src ∈ files_to_check →
  Error (not_found_message src) ∈ (load_and_clean_data fs).2
  ↔ raw_batch fs src = None.
Proof.
  intros Hsrc. rewrite load_events, elem_of_flat_map. split.
  - intros (src' & Hsrc' & Hin).
    apply source_events_error in Hin as [Hnone Hmsg].
    symmetry in Hmsg.
    by apply (not_found_messages_distinct src src' Hsrc Hsrc') in Hmsg as ->.
  - intros Hnone. exists src. split; [done|].
    by apply source_events_error.
Qed.

(** X7. The loader shows one warning for each source whose CSV file was
    tried and gave no frame, and no other warning. *)
Theorem warnings_count fs :
  length (List.filter is_warning (load_and_clean_data fs).2)
  = length (List.filter (csv_failed fs) files_to_check).
Proof.
  rewrite load_events.
  induction files_to_check as [|src srcs IH]; [done|].
  cbn [flat_map List.filter]. rewrite List.filter_app, length_app, IH.
  rewrite source_events_warnings. by destruct (csv_failed fs src).
Qed.

End log_extras.

Section status_and_department_extras.
Context `{CellText}.

(** X8. On cells that print as ASCII text, the status pipeline of lines
    61-66 gives texts with no white space at either end, whose first
    character is not a lowercase letter and whose other characters are not
    uppercase letters. *)
Theorem status_text_shape col :
  Forall (λ v, Str.is_ascii (Ser.str_of_cell v) = true) col →
  Forall (λ v, ∃ t, v = VStr t
                    ∧ Str.strip t = t
                    ∧ match t with
                      | [] => True
                      | c :: rest => is_lower c = false
                                     ∧ Forall (λ a, is_upper a = false) rest
                      end)
         (status_series col).
Proof.
  intros Hcol. rewrite status_series_map, Forall_map.
  eapply Forall_impl; [exact Hcol|]. intros v Hv.
  exists (status_text (Ser.str_of_cell v)). split; [done|].
  rewrite (status_text_ascii _ Hv). split; [apply strip_cap_low_strip|].
  destruct (Str.strip (Ser.str_of_cell v)) as [|c rest]; simpl; [done|].
  split; [apply is_lower_up1|].
  rewrite Forall_map. apply Forall_true. intros a. apply is_upper_low1.
Qed.

(** X9. On a data set that is not empty, choosing the department of a
    source (and any status) keeps exactly the rows read from that source,
    in their order. *)
Theorem department_filter_selects_source fs df t src :
  load_and_clean_data fs = (Returns df, t) →
  is_empty df = false →
  src ∈ files_to_check →
  filter_rows df (py src.1.1) (py "All")
  = mret {| columns := columns df;
            rows := match raw_batch fs src with
                    | Some d => map (final_row (columns df) src.1.1) (rows d)
                    | None => []
                    end |}.
Proof.
  intros Hload Hne Hsrc.
  pose proof (load_department_label _ _ _ Hload Hne) as Hd.
  rewrite filter_rows_spec by done. do 2 f_equal.
  rewrite (dataset_rows _ _ _ Hload) at 1.
  assert (∀ dept dept' d, py dept ≠ py "All" →
            List.filter (keeps df (py dept) (py "All"))
              (map (final_row (columns df) dept') (rows d))
            = if bool_decide (py dept' = py dept)
              then map (final_row (columns df) dept') (rows d) else []) as Hone.
  { intros dept dept' d Hall. case_bool_decide as Heq.
    - apply filter_map_all. intros r. rewrite keeps_final_row by done.
      by apply bool_decide_eq_true_2.
    - apply filter_map_none. intros r. rewrite keeps_final_row by done.
      by apply bool_decide_eq_false_2. }
  unfold files_to_check in *. cbn [flat_map]. rewrite app_nil_r, List.filter_app.
  repeat apply elem_of_cons in Hsrc as [->|Hsrc];
    [| |by apply elem_of_nil in Hsrc]; cbn [fst snd];
    repeat match goal with
           | |- context [raw_batch fs ?s] => destruct (raw_batch fs s)
           end;
    rewrite ?Hone by done; simpl; by rewrite ?app_nil_r.
Qed.

End status_and_department_extras.

Section page_extras.
Context `{CellText}.



(** X12. On a data set that is not empty and any choice of filters, the
    number of researchers shown is at most the number of projects shown,
    and it is at least one when there is a [Faculty Name] column and a
    project is shown: the sentinel [Unknown] counts as a researcher. *)
Theorem researchers_bounds fs df t dept_choice status_choice :
  load_and_clean_data fs = (Returns df, t) →
  is_empty df = false →
  ∃ df_filtered m,
    filter_rows df dept_choice status_choice = mret df_filtered
    ∧ summarize df df_filtered = mret m
    ∧ unique_faculty m ≤ total_projects m
    ∧ ("Faculty Name" ∈ columns df → 0 < total_projects m →
       1 ≤ unique_faculty m).
Proof.
  intros Hload Hne.
  pose proof (load_department_label _ _ _ Hload Hne) as Hd.
  pose proof (load_amount_label _ _ _ Hload Hne) as Ha.
  eexists _, _. split; [by apply filter_rows_spec|].
  split; [by apply summarize_spec|]. cbn.
  set (kept := List.filter (keeps df dept_choice status_choice) (rows df)).
  split.
  - case_bool_decide; [|lia].
    etrans; [apply nunique_le|]. unfold Frame.column. cbn [rows].
    by rewrite length_map.
  - intros Hf Hpos. rewrite bool_decide_eq_true_2 by done.
    apply nunique_pos.
    + pose proof (load_returns _ _ _ Hload) as [_ Hrows].
      unfold Frame.column. cbn [rows]. rewrite Forall_map.
      apply Forall_forall. intros r Hr.
      apply list_elem_of_In, filter_In in Hr as [Hr _].
      rewrite Hrows in Hr. apply in_map_iff in Hr as (r0 & <- & _).
      unfold cell. rewrite clean_row_faculty by done. simpl.
      by apply fill_cell_notna.
    + unfold Frame.column. cbn [rows]. fold kept.
      intros Hnil. apply (f_equal length) in Hnil.
      rewrite length_map in Hnil. unfold nrows in Hpos. cbn [rows] in Hpos.
      fold kept in Hpos. simpl in Hnil. lia.
Qed.

End page_extras.

Section options_extras.
Context `{CellText}.

(** X13. The cells of [Department] in a returned data set are texts, and
    the list offered by the department select box (line 91) is [All]
    followed by the departments of the sources that gave at least one row,
    in the order of [files_to_check], which is the alphabetical one. *)
Theorem department_options fs df t :
  load_and_clean_data fs = (Returns df, t) →
  ∃ texts,
    Frame.column "Department" df = map VStr texts
    ∧ select_options texts
      = py "All"
        :: map (λ src, py src.1.1)
             (List.filter (λ src, bool_decide (0 < batch_rows fs src))
                          files_to_check).
Proof.
  intros Hload. exists (map py (provenance fs)).
  split; [by apply (department_column fs df t)|].
  unfold select_options. f_equal.
  rewrite provenance_blocks. unfold files_to_check. cbn [flat_map List.filter].
  rewrite app_nil_r, map_app, !fmap_replicate. cbn [fst snd].
  destruct (batch_rows fs ("CSE", "CSEDATA.xlsx", "CSEDATA.xlsx - Sheet1.csv"))
    as [|n1];
    destruct (batch_rows fs ("ECE", "ECEDATA.xlsx", "ECEDATA.xlsx - Sheet1.csv"))
    as [|n2].
  - done.
  - rewrite (bool_decide_eq_false_2 (0 < 0)) by lia.
    rewrite (bool_decide_eq_true_2 (0 < S n2)) by lia.
    change (replicate 0 (py "CSE")) with (@nil pystr). cbn [app].
    rewrite <- (app_nil_r (replicate (S n2) _)), unique_replicate_app.
    done.
  - rewrite (bool_decide_eq_true_2 (0 < S n1)) by lia.
    rewrite (bool_decide_eq_false_2 (0 < 0)) by lia.
    change (replicate 0 (py "ECE")) with (@nil pystr).
    rewrite unique_replicate_app. done.
  - rewrite (bool_decide_eq_true_2 (0 < S n1)) by lia.
    rewrite (bool_decide_eq_true_2 (0 < S n2)) by lia.
    rewrite unique_replicate_app.
    rewrite <- (app_nil_r (replicate (S n2) _)), unique_replicate_app.
    done.
Qed.

End options_extras.

Section table_extras.
Context `{CellText} `{TextSearch}.

(** X14. When no frame read has a [Title] column, any search in the
    detail table of a data set that is not empty raises [KeyError] on
    [Title] (line 200 reads the column without testing for it), whatever
    the filters. *)
Theorem search_without_title_raises fs df t dept_choice status_choice term :
  load_and_clean_data fs = (Returns df, t) →
  (∀ src d, src ∈ files_to_check → raw_batch fs src = Some d →
            "Title" ∉ columns d) →
  term ≠ [] →
  detail_table (filtered df dept_choice status_choice) term
  = (Raises (KeyError "Title"), table_events).
Proof.
  intros Hload Hno Hterm.
  assert ("Title" ∉ columns (filtered df dept_choice status_choice)) as Ht.
  { cbn [columns filtered].
    intros (src & d & Hsrc & Hraw & Hin)%(title_in_dataset _ _ _ Hload).
    by destruct (Hno src d Hsrc Hraw). }
  unfold detail_table, table_events. do 3 apply emit_eq.
  rewrite bool_decide_eq_true_2 by done.
  rewrite (getitem_absent "Title") by done.
  by rewrite !(bind_raises _ _ (KeyError "Title")).
Qed.

(** X15. A search whose pattern does not compile raises the error of the
    compilation: nothing catches it, and no table is shown. *)
Theorem search_bad_pattern_raises df_filtered term e :
  term ≠ [] →
  "Title" ∈ columns df_filtered →
  compile_ignorecase term = inl e →
  detail_table df_filtered term = (Raises e, table_events).
Proof.
  intros Hterm Ht Hc. unfold detail_table, table_events. do 3 apply emit_eq.
  rewrite bool_decide_eq_true_2 by done.
  rewrite (getitem_present "Title"), bind_mret by done.
  rewrite (str_contains_raises _ e) by done.
  by rewrite !(bind_raises _ _ e).
Qed.

(** X16. With an empty search box the detail table never fails: it shows
    every filtered row, on those of the seven columns of line 207 that the
    frame has, in that order. *)
Theorem table_without_search df_filtered :
  detail_table df_filtered [] = (Returns (table_of df_filtered), table_events).
Proof.
  unfold detail_table, table_events. do 3 apply emit_eq.
  rewrite bool_decide_eq_false_2 by (by intros []).
  rewrite bind_mret. apply getitem_shown.
Qed.

(** X17. A search whose pattern compiles shows, on the same columns, the
    filtered rows in which the pattern is found in the title or, when there
    is a [Faculty Name] column, in the faculty name, each cell being
    searched as it prints (a missing title as [nan]). *)
Theorem table_with_search df_filtered term found :
  term ≠ [] →
  "Title" ∈ columns df_filtered →
  compile_ignorecase term = inr found →
  detail_table df_filtered term
  = (Returns (table_of {| columns := columns df_filtered;
                          rows := List.filter (row_found found df_filtered)
                                              (rows df_filtered) |}),
     table_events).
Proof.
  intros Hterm Ht Hc. unfold detail_table, table_events. do 3 apply emit_eq.
  rewrite bool_decide_eq_true_2 by done.
  rewrite (search_mask _ _ _ Ht Hc), bind_mret.
  apply getitem_shown.
Qed.

End table_extras.

(* ------------------------------------------------------------------ *)
(** ** The further properties on the sample data *)

Ltac not_in_list :=
  simpl; repeat rewrite not_elem_of_cons; split_and!; try done;
  apply not_elem_of_nil.

Section extras_witnesses.
#[local] Existing Instance Example.decimal_text.
#[local] Existing Instance Sample.plain_search.

(** The sample spreadsheet, loaded. *)
Example sample_dataset :
  load_and_clean_data Sample.fs = (Returns Sample.dataset, Sample.trace).
Proof. vm_compute. reflexivity. Qed.

Lemma dataset_row_count_witness :
  nrows Sample.dataset = sum_list (map (batch_rows Sample.fs) files_to_check)
  ∧ nrows Sample.dataset = length (rows_read Sample.fs).
Proof.
  apply (dataset_row_count Sample.fs Sample.dataset Sample.trace).
  vm_compute. reflexivity.
Defined.


Lemma untouched_columns_pass_through_witness :
  map (λ r, r !! "Title") (rows Sample.dataset)
  = map (λ r, Some (cell "Title" r)) (rows_read Sample.fs).
Proof.
  apply (untouched_columns_pass_through Sample.fs Sample.dataset Sample.trace).
  - vm_compute. reflexivity.
  - simpl. left.
  - unfold touched_labels. not_in_list.
Defined.

Lemma spreadsheet_comes_first_witness :
  raw_batch Example.fs ("CSE", "CSEDATA.xlsx", "CSEDATA.xlsx - Sheet1.csv")
  = Some Example.cse_sheet.
Proof.
  apply (spreadsheet_comes_first Example.fs
           ("CSE", "CSEDATA.xlsx", "CSEDATA.xlsx - Sheet1.csv")
           Example.cse_sheet).
  - unfold files_to_check. left.
  - reflexivity.
  - reflexivity.
Defined.

Lemma not_found_reported_iff_witness :
  Error (not_found_message ("ECE", "ECEDATA.xlsx", "ECEDATA.xlsx - Sheet1.csv"))
    ∈ (load_and_clean_data Sample.fs).2
  ↔ raw_batch Sample.fs ("ECE", "ECEDATA.xlsx", "ECEDATA.xlsx - Sheet1.csv")
    = None.
Proof.
  apply (not_found_reported_iff Sample.fs
           ("ECE", "ECEDATA.xlsx", "ECEDATA.xlsx - Sheet1.csv")).
  unfold files_to_check. right. left.
Defined.

Lemma status_text_shape_witness :
  Forall (λ v, ∃ t, v = VStr t
                    ∧ Str.strip t = t
                    ∧ match t with
                      | [] => True
                      | c :: rest => is_lower c = false
                                     ∧ Forall (λ a, is_upper a = false) rest
                      end)
         (status_series [VStr (py " ongoing "); VNull]).
Proof.
  apply (status_text_shape [VStr (py " ongoing "); VNull]).
  repeat constructor.
Defined.

Lemma department_filter_selects_source_witness :
  filter_rows Example.dataset (py "CSE") (py "All")
  = mret {| columns := columns Example.dataset;
            rows := match raw_batch Example.fs
                            ("CSE", "CSEDATA.xlsx", "CSEDATA.xlsx - Sheet1.csv") with
                    | Some d => map (final_row (columns Example.dataset) "CSE")
                                    (rows d)
                    | None => []
                    end |}.
Proof.
  apply (department_filter_selects_source Example.fs Example.dataset
           Example.trace ("CSE", "CSEDATA.xlsx", "CSEDATA.xlsx - Sheet1.csv")).
  - vm_compute. reflexivity.
  - reflexivity.
  - unfold files_to_check. left.
Defined.



Lemma researchers_bounds_witness :
  ∃ df_filtered m,
    filter_rows Sample.dataset (py "CSE") (py "All") = mret df_filtered
    ∧ summarize Sample.dataset df_filtered = mret m
    ∧ unique_faculty m ≤ total_projects m
    ∧ ("Faculty Name" ∈ columns Sample.dataset → 0 < total_projects m →
       1 ≤ unique_faculty m).
Proof.
  apply (researchers_bounds Sample.fs Sample.dataset Sample.trace).
  - vm_compute. reflexivity.
  - reflexivity.
Defined.

Lemma department_options_witness :
  ∃ texts,
    Frame.column "Department" Sample.dataset = map VStr texts
    ∧ select_options texts
      = py "All"
        :: map (λ src, py src.1.1)
             (List.filter (λ src, bool_decide (0 < batch_rows Sample.fs src))
                          files_to_check).
Proof.
  apply (department_options Sample.fs Sample.dataset Sample.trace).
  vm_compute. reflexivity.
Defined.

Lemma search_without_title_raises_witness :
  detail_table (filtered Example.dataset (py "All") (py "All")) (py "ai")
  = (Raises (KeyError "Title"), table_events).
Proof.
  apply (search_without_title_raises Example.fs Example.dataset Example.trace).
  - vm_compute. reflexivity.
  - intros src d Hsrc Hraw. unfold files_to_check in Hsrc.
    repeat apply elem_of_cons in Hsrc as [->|Hsrc];
      [..|by apply elem_of_nil in Hsrc];
      vm_compute in Hraw; injection Hraw as <-; not_in_list.
  - discriminate.
Defined.

Lemma search_bad_pattern_raises_witness :
  detail_table Sample.dataset (py "(edge")
  = (Raises (OtherError "missing ), unterminated subpattern"), table_events).
Proof.
  apply (search_bad_pattern_raises Sample.dataset (py "(edge")).
  - discriminate.
  - simpl. left.
  - reflexivity.
Defined.

Lemma table_with_search_witness :
  detail_table Sample.dataset (py "NA")
  = (Returns (table_of {| columns := columns Sample.dataset;
                          rows := List.filter
                                    (row_found (λ text, Sample.occurs_in
                                                  (Str.lower (py "NA"))
                                                  (Str.lower text))
                                               Sample.dataset)
                                    (rows Sample.dataset) |}),
     table_events).
Proof.
  apply (table_with_search Sample.dataset (py "NA")).
  - discriminate.
  - simpl. left.
  - reflexivity.
Defined.

(** Searching [NA] finds the row whose title is missing: the missing
    title is searched as the text [nan]. *)
Example search_finds_missing_title :
  map (λ r, r !! "Faculty Name")
      (List.filter (row_found (λ text, Sample.occurs_in (Str.lower (py "NA"))
                                         (Str.lower text))
                              Sample.dataset)
                   (rows Sample.dataset))
  = [Some (VStr (py "Rao"))].
Proof. vm_compute. reflexivity. Qed.

End extras_witnesses.

Section status_box_extras.
Context `{CellText}.

(** X18. In a returned data set with a [Status] column the status cells
    are texts, and the list offered by the status select box (line 95) is
    [All] followed by the status texts of the data set, each once, in
    strictly increasing order: every status present can be chosen. *)
Theorem status_options fs df t :
  load_and_clean_data fs = (Returns df, t) →
  "Status" ∈ columns df →
  ∃ texts opts,
    Frame.column "Status" df = map VStr texts
    ∧ select_options texts = py "All" :: opts
    ∧ (∀ s, s ∈ opts ↔ s ∈ texts)
    ∧ NoDup opts
    ∧ Sorted (λ a b, Text.ltb a b = true) opts.
Proof.
  intros Hload Hs. eexists _, _.
  split; [by apply (status_column fs df t)|].
  split; [reflexivity|].
  set (texts := map _ _).
  assert (NoDup (Text.sorted (Text.unique texts))) as Hnd.
  { rewrite sorted_perm. apply NoDup_unique. }
  split_and!; [|done|].
  - intros s. by rewrite sorted_perm, elem_of_unique.
  - apply sorted_strict; [done|apply sorted_sorted].
Qed.

(** X19. When no frame read has a [Status] column, the choice made in the
    status select box plays no part: [main] ends the same way and logs the
    same events for any two status choices. *)
Theorem status_choice_ignored fs dept_choice status_choice status_choice' :
  (∀ src d, src ∈ files_to_check → raw_batch fs src = Some d →
            "Status" ∉ columns d) →
  main fs dept_choice status_choice = main fs dept_choice status_choice'.
Proof.
  intros Hno. destruct (load_and_clean_data fs) as [[df|e|] t] eqn:Hload.
  - assert ("Status" ∉ columns df) as Hs.
    { intros (src & d & Hsrc & Hraw & Hin)%(status_in_dataset _ _ _ Hload).
      by destruct (Hno src d Hsrc Hraw). }
    destruct (is_empty df) eqn:Hemp.
    + by rewrite !(main_stops _ _ _ _ _ Hload Hemp).
    + rewrite !(main_run _ _ _ _ _ Hload Hemp).
      unfold page_events, filtered, status_in_use.
      by rewrite !(bool_decide_eq_false_2 _ Hs).
  - assert ((load_and_clean_data fs).1 = Raises e) as He by (by rewrite Hload).
    by rewrite !(main_raises _ _ _ _ He).
  - by destruct (load_never_stops fs t).
Qed.

End status_box_extras.

Section status_box_witnesses.
#[local] Existing Instance Example.decimal_text.

Lemma status_options_witness :
  ∃ texts opts,
    Frame.column "Status" Example.dataset = map VStr texts
    ∧ select_options texts = py "All" :: opts
    ∧ (∀ s, s ∈ opts ↔ s ∈ texts)
    ∧ NoDup opts
    ∧ Sorted (λ a b, Text.ltb a b = true) opts.
Proof.
  apply (status_options Example.fs Example.dataset Example.trace).
  - vm_compute. reflexivity.
  - simpl. left.
Defined.

(** The options of the scenario: All, Completed, Ongoing. *)
Example scenario_status_options :
  select_options [py "Ongoing"; py "Completed"]
  = [py "All"; py "Completed"; py "Ongoing"].
Proof. vm_compute. reflexivity. Qed.

Lemma status_choice_ignored_witness :
  main Sample.fs (py "All") (py "Ongoing") = main Sample.fs (py "All") (py "All").
Proof.
  apply (status_choice_ignored Sample.fs).
  intros src d Hsrc Hraw. unfold files_to_check in Hsrc.
  repeat apply elem_of_cons in Hsrc as [->|Hsrc];
    [..|by apply elem_of_nil in Hsrc].
  - vm_compute in Hraw. injection Hraw as <-. not_in_list.
  - vm_compute in Hraw. discriminate Hraw.
Defined.

End status_box_witnesses.
